(** * The advanced mini chatbot ([mini_chatbot/advanced/main.py])

    A shallow embedding of the [AdvancedChatbot] class and of the command
    loop of [main], followed by the properties of the conversation session:
    what a turn appends to the history, how failures of the remote call are
    turned into text, what is saved to disk, and what the summary reports.

    Python [str] is modelled by [string], a text being the bytes of its
    UTF-8 encoding.  The methods of [str] whose result depends on the Unicode
    tables ([lower], [strip], the characters a [for] loop goes through) are
    taken as the parameters [Py.StrOps] of the program: what is proved holds
    for any such methods, and [Py.ascii_str] gives them on ASCII text for
    concrete runs.  The outside world (the clock, the Gemini client, the file
    system, the terminal input) enters every operation as an explicit argument
    holding what the world answered; writing to standard output is taken to
    succeed, and the world raises only where it is asked. *)

From Stdlib Require Import String Ascii List Bool Arith Lia DecimalString.
Import ListNotations.
Local Open Scope list_scope.
Local Open Scope string_scope.

(** ** Python values used by the program *)

Module Py.

(** The exception classes the program distinguishes.  [KeyboardInterrupt]
    and [SystemExit] derive from [BaseException] only; [EOFError] and every
    other error ([OtherException]) derive from [Exception]. *)
Inductive ExcClass : Type :=
| KeyboardInterrupt
| SystemExit (code : nat)
| EOFError
| OtherException.

(** An exception object: its class and the text of [str(e)]. *)
Record BaseException : Type := mkExc { exc_class : ExcClass; str : string }.

Definition isinstance_Exception (e : BaseException) : bool :=
  match exc_class e with
  | EOFError | OtherException => true
  | KeyboardInterrupt | SystemExit _ => false
  end.

Definition is_KeyboardInterrupt (e : BaseException) : bool :=
  match exc_class e with KeyboardInterrupt => true | _ => false end.

Definition is_EOFError (e : BaseException) : bool :=
  match exc_class e with EOFError => true | _ => false end.

(** How a call ends. *)
Inductive Result (A : Type) : Type :=
| Returned (a : A)
| Raised (e : BaseException).
Arguments Returned {A} a.
Arguments Raised {A} e.

(** [s.lower()], on the ASCII letters. *)
Definition lower_char (c : ascii) : ascii :=
  let n := nat_of_ascii c in
  if ((65 <=? n) && (n <=? 90))%nat then ascii_of_nat (n + 32) else c.

Fixpoint lower_ascii (s : string) : string :=
  match s with
  | EmptyString => EmptyString
  | String c rest => String (lower_char c) (lower_ascii rest)
  end.

(** [needle in s] for two strings. *)
Fixpoint contains (needle s : string) : bool :=
  String.prefix needle s ||
  match s with
  | EmptyString => false
  | String _ rest => contains needle rest
  end.

(** [s.strip()]: the white space of ASCII is removed at both ends. *)
Definition isspace (c : ascii) : bool :=
  let n := nat_of_ascii c in
  (((9 <=? n) && (n <=? 13)) || ((28 <=? n) && (n <=? 32)))%nat.

Fixpoint lstrip (s : string) : string :=
  match s with
  | EmptyString => EmptyString
  | String c rest => if isspace c then lstrip rest else s
  end.

Fixpoint rstrip (s : string) : string :=
  match s with
  | EmptyString => EmptyString
  | String c rest =>
      match rstrip rest with
      | EmptyString => if isspace c then EmptyString else String c EmptyString
      | kept => String c kept
      end
  end.

Definition strip_ascii (s : string) : string := rstrip (lstrip s).

(** The characters of a text of ASCII characters, each as a text. *)
Definition chars_ascii (s : string) : list string :=
  map (fun c => String c EmptyString) (list_ascii_of_string s).

(** The methods of [str] that depend on the Unicode tables: [s.lower()],
    [s.strip()] and the characters of [s], in order, as [for char in s] goes
    through them.  Lower-casing the empty text gives the empty text, and the
    characters of a text, joined, are the text. *)
Class StrOps : Type := {
  lower : string -> string;
  strip : string -> string;
  chars : string -> list string;
  lower_empty : lower EmptyString = EmptyString;
  chars_joined : forall s : string, String.concat EmptyString (chars s) = s
}.

(** These methods on ASCII text. *)
#[export] Instance ascii_str : StrOps.
Proof.
  refine {| lower := lower_ascii; strip := strip_ascii; chars := chars_ascii;
            lower_empty := eq_refl; chars_joined := _ |}.
  induction s as [|c rest IH]; [reflexivity|].
  unfold chars_ascii in *. cbn [list_ascii_of_string map String.concat].
  destruct (map (fun c0 => String c0 EmptyString) (list_ascii_of_string rest)) eqn:Hrest.
  - destruct rest; [reflexivity | discriminate Hrest].
  - rewrite IH. reflexivity.
Defined.

(** [str(n)] for a natural number, and the zero padded ["%0<width>d"]. *)
Definition str_of_nat (n : nat) : string := NilZero.string_of_uint (Nat.to_uint n).

Fixpoint zeros (k : nat) : string :=
  match k with
  | O => EmptyString
  | S k' => String "0" (zeros k')
  end.

Definition zfill (width n : nat) : string :=
  let digits := str_of_nat n in
  zeros (width - String.length digits) ++ digits.

(** Truth value of an [Optional[str]]: [None] and the empty string are false. *)
Definition truthy (o : option string) : bool :=
  match o with
  | Some s => negb (s =? EmptyString)
  | None => false
  end.

(** [a or b] on [Optional[str]]. *)
Definition or_else (a b : option string) : option string :=
  if truthy a then a else b.

(** A naive [datetime]. *)
Record datetime : Type := mkDatetime {
  year : nat; month : nat; day : nat;
  hour : nat; minute : nat; second : nat; microsecond : nat
}.

(** [d.isoformat()]: [YYYY-MM-DDTHH:MM:SS], followed by [.ffffff] when the
    microseconds are not zero. *)
Definition isoformat (d : datetime) : string :=
  zfill 4 (year d) ++ "-" ++ zfill 2 (month d) ++ "-" ++ zfill 2 (day d) ++ "T" ++
  zfill 2 (hour d) ++ ":" ++ zfill 2 (minute d) ++ ":" ++ zfill 2 (second d) ++
  (if (microsecond d =? 0)%nat then EmptyString else "." ++ zfill 6 (microsecond d)).

(** [d.strftime("%Y%m%d_%H%M%S")], for the years from 1000 on. *)
Definition strftime_Ymd_HMS (d : datetime) : string :=
  zfill 4 (year d) ++ zfill 2 (month d) ++ zfill 2 (day d) ++ "_" ++
  zfill 2 (hour d) ++ zfill 2 (minute d) ++ zfill 2 (second d).

End Py.
Import Py.

(** ** The process around the chatbot object *)

(** One entry of the saved file: a JSON object whose values are all strings,
    as the list of its key/value pairs in the order they were written. *)
Definition JsonObject : Type := list (string * string).

(** What the program has done to the outside: the texts written to standard
    output, one per write, oldest first, and the files it has written to the
    end (the latest write first), each holding the list given to [json.dump].
    A write that failed is not recorded, whatever it left of the file. *)
Record World : Type := mkWorld {
  stdout : list string;
  disk : list (string * list JsonObject)
}.

(** A computation over a mutable object of type [S]: it ends by returning or
    by raising, and in both cases leaves the object and the world as they were
    at that point. *)
Definition M (S A : Type) : Type := S -> World -> Result A * S * World.

Definition ret {S A : Type} (a : A) : M S A := fun s w => (Returned a, s, w).

Definition bind {S A B : Type} (c : M S A) (k : A -> M S B) : M S B :=
  fun s w =>
    match c s w with
    | (Returned a, s', w') => k a s' w'
    | (Raised e, s', w') => (Raised e, s', w')
    end.

Definition raise {S A : Type} (e : BaseException) : M S A :=
  fun s w => (Raised e, s, w).

Declare Scope py_scope.
Delimit Scope py_scope with py.
Notation "x <- c ;; k" := (bind c (fun x => k))
  (at level 100, c at next level, right associativity) : py_scope.
Notation "c ;; k" := (bind c (fun _ => k))
  (at level 100, right associativity) : py_scope.
Local Open Scope py_scope.

(** [try: body  except Exception as e: handler e]. *)
Definition try_except_Exception {S A : Type}
    (body : M S A) (handler : BaseException -> M S A) : M S A :=
  fun s w =>
    match body s w with
    | (Returned a, s', w') => (Returned a, s', w')
    | (Raised e, s', w') =>
        if isinstance_Exception e then handler e s' w' else (Raised e, s', w')
    end.

(** The answer of the outside world to a call made at this point. *)
Definition extern {S A : Type} (answer : Result A) : M S A :=
  fun s w => (answer, s, w).

(** [print(text, end=ending)]. *)
Definition print_end {S : Type} (text ending : string) : M S unit :=
  fun s w => (Returned tt, s, mkWorld (List.app (stdout w) [text ++ ending]) (disk w)).

Definition newline : string := String (ascii_of_nat 10) EmptyString.

(** [print(text)]. *)
Definition print {S : Type} (text : string) : M S unit := print_end text newline.

(** [sys.exit(code)]. *)
Definition sys_exit {S A : Type} (code : nat) : M S A :=
  raise (mkExc (SystemExit code) (str_of_nat code)).

(** A completed [open(filename, "w")] and [json.dump(data, f)]. *)
Definition write_json {S : Type} (filename : string) (data : list JsonObject) : M S unit :=
  fun s w => (Returned tt, s, mkWorld (stdout w) ((filename, data) :: disk w)).

Definition get_self {S : Type} : M S S := fun s w => (Returned s, s, w).

(** ** The data model *)

(** [@dataclass ChatMessage]; [role] is ['user'], ['assistant'] or
    ['system']. *)
Record ChatMessage : Type := mkChatMessage {
  role : string;
  content : string;
  timestamp : option datetime
}.

(** The constructor with [__post_init__]: a missing timestamp becomes the
    current time [now]. *)
Definition ChatMessage_new (role content : string) (timestamp : option datetime)
    (now : datetime) : ChatMessage :=
  mkChatMessage role content
    (match timestamp with
     | None => Some now
     | Some t => Some t
     end).

(** The chat handle of the Gemini client, as it was asked for. *)
Record ChatSession : Type := mkChatSession {
  model_name : string;
  system_instruction : string
}.

Record AdvancedChatbot : Type := mkAdvancedChatbot {
  api_key : option string;
  model : string;
  conversation_history : list ChatMessage;
  chat_session : option ChatSession;
  system_prompt : string
}.

Definition set_conversation_history (h : list ChatMessage) : M AdvancedChatbot unit :=
  fun self w =>
    (Returned tt,
     mkAdvancedChatbot (api_key self) (model self) h (chat_session self) (system_prompt self),
     w).

Definition set_chat_session (c : option ChatSession) : M AdvancedChatbot unit :=
  fun self w =>
    (Returned tt,
     mkAdvancedChatbot (api_key self) (model self) (conversation_history self) c
       (system_prompt self),
     w).

(** [self.conversation_history.append(msg)]. *)
Definition history_append (msg : ChatMessage) : M AdvancedChatbot unit :=
  fun self w =>
    (Returned tt,
     mkAdvancedChatbot (api_key self) (model self) (List.app (conversation_history self) [msg])
       (chat_session self) (system_prompt self),
     w).

(** ** The methods of [AdvancedChatbot] *)

(** [_initialize_client].  [connect] is how [genai.configure] followed by
    [list(genai.list_models())] ends. *)
Definition _initialize_client (connect : Result unit) : M AdvancedChatbot unit :=
  self <- get_self ;;
  (if negb (truthy (api_key self)) then
     print "âŒ Error: Google AI API key not found!" ;;
     print "Please set your API key in one of these ways:" ;;
     print "1. Set the GEMINI_API_KEY environment variable" ;;
     print "2. Pass the API key when creating the chatbot" ;;
     print (newline ++ "You can get an API key from: https://makersuite.google.com/app/apikey") ;;
     sys_exit 1
   else ret tt) ;;
  try_except_Exception
    (extern connect ;;
     print "âœ… Successfully connected to Google AI API")
    (fun e =>
       print ("âŒ Error connecting to Google AI API: " ++ str e) ;;
       print "Please check your API key and internet connection." ;;
       sys_exit 1).

(** [_start_chat_session].  [start] is how [genai.GenerativeModel(...)]
    followed by [model.start_chat(history=[])] ends, [now] the clock when the
    system message is made. *)
Definition _start_chat_session (start : Result unit) (now : datetime) :
    M AdvancedChatbot unit :=
  try_except_Exception
    (self <- get_self ;;
     extern start ;;
     set_chat_session (Some (mkChatSession (model self) (system_prompt self))) ;;
     let system_message := ChatMessage_new "system" (system_prompt self) None now in
     history_append system_message)
    (fun e =>
       print ("âŒ Error starting chat session: " ++ str e) ;;
       sys_exit 1).

(** [__init__].  [getenv] is the value of [os.getenv("GEMINI_API_KEY")].  The
    call returns the new object when [__init__] returns. *)
Definition __init__ (api_key : option string) (model : string)
    (getenv : option string) (connect start : Result unit) (now : datetime) :
    M unit AdvancedChatbot :=
  fun _ w =>
    let self :=
      mkAdvancedChatbot (or_else api_key getenv) model [] None
"You are a friendly, helpful, and engaging chatbot assistant.
        You have a warm personality and enjoy having conversations with users.
        You're knowledgeable about a wide range of topics but keep your responses concise and conversational.
        If you don't know something, you're honest about it.
        You remember context from the conversation and can refer back to previous messages." in
    match (_initialize_client connect ;; _start_chat_session start now) self w with
    | (Returned _, self', w') => (Returned self', tt, w')
    | (Raised e, _, w') => (Raised e, tt, w')
    end.

(** [_typing_indicator()], with its default duration: [int(1.5 * 3)] dots. *)
Definition _typing_indicator : M AdvancedChatbot unit :=
  print_end "ðŸ¤– Thinking" EmptyString ;;
  print_end "." EmptyString ;;
  print_end "." EmptyString ;;
  print_end "." EmptyString ;;
  print_end "." EmptyString ;;
  print EmptyString.

(** [self.chat_session.send_message(user_message).text]: an attribute error
    when there is no chat session, otherwise what the remote call answers. *)
Definition send_message (reply : Result string) : M AdvancedChatbot string :=
  self <- get_self ;;
  match chat_session self with
  | None => raise (mkExc OtherException "'NoneType' object has no attribute 'send_message'")
  | Some _ => extern reply
  end.

(** [get_ai_response].  [now_user] and [now_ai] are the clock when the two
    messages are made, [reply] is how the remote call ends. *)
Definition get_ai_response {py : StrOps} (user_message : string) (now_user now_ai : datetime)
    (reply : Result string) : M AdvancedChatbot string :=
  let user_msg := ChatMessage_new "user" user_message None now_user in
  history_append user_msg ;;
  try_except_Exception
    (_typing_indicator ;;
     ai_response <- send_message reply ;;
     let ai_msg := ChatMessage_new "assistant" ai_response None now_ai in
     history_append ai_msg ;;
     ret ai_response)
    (fun e =>
       let error_message := lower (str e) in
       if contains "quota" error_message || contains "limit" error_message then
         ret "I'm getting too many requests right now. Please wait a moment and try again."
       else if contains "api" error_message then
         ret ("I'm having trouble connecting to my brain right now. Error: " ++ str e)
       else
         ret ("Something unexpected happened: " ++ str e)).

(** [get_conversation_summary]. *)
Definition get_conversation_summary : M AdvancedChatbot string :=
  self <- get_self ;;
  if (List.length (conversation_history self) <=? 1)%nat then
    ret "No conversation yet."
  else
    let user_messages :=
      filter (fun msg => role msg =? "user") (conversation_history self) in
    let ai_messages :=
      filter (fun msg => role msg =? "assistant") (conversation_history self) in
    ret ("Conversation stats: " ++ str_of_nat (List.length user_messages) ++
         " user messages, " ++ str_of_nat (List.length ai_messages) ++ " AI responses").

(** The loop of [save_conversation] from position [i] of the history on.
    [now_at i] is the clock when the loop is at position [i]; it is read only
    for a message without timestamp. *)
Fixpoint conversation_data_from (i : nat) (now_at : nat -> datetime)
    (history : list ChatMessage) : list JsonObject :=
  match history with
  | [] => []
  | msg :: rest =>
      let later := conversation_data_from (S i) now_at rest in
      if negb (role msg =? "system") then
        [ ("role", role msg);
          ("content", content msg);
          ("timestamp",
           match timestamp msg with
           | Some t => isoformat t
           | None => isoformat (now_at i)
           end) ] :: later
      else later
  end.

(** [save_conversation].  [now] is the clock when the default file name is
    made, [written] is how opening the file and dumping the data ends. *)
Definition save_conversation (filename : option string) (now : datetime)
    (now_at : nat -> datetime) (written : Result unit) : M AdvancedChatbot unit :=
  let filename :=
    match filename with
    | None => "chatbot_conversation_" ++ strftime_Ymd_HMS now ++ ".json"
    | Some name => name
    end in
  self <- get_self ;;
  let conversation_data := conversation_data_from 0 now_at (conversation_history self) in
  try_except_Exception
    (extern written ;;
     write_json filename conversation_data ;;
     print ("ðŸ’¾ Conversation saved to " ++ filename))
    (fun e => print ("âŒ Error saving conversation: " ++ str e)).

(** [clear_history]. *)
Definition clear_history (start : Result unit) (now : datetime) : M AdvancedChatbot unit :=
  set_conversation_history [] ;;
  _start_chat_session start now ;;
  print "ðŸ—‘ï¸ Conversation history cleared.".

(** ** The command loop *)

(** [text * n]. *)
Fixpoint repeat_str (text : string) (n : nat) : string :=
  match n with
  | O => EmptyString
  | S n' => text ++ repeat_str text n'
  end.

(** [print_welcome_message]. *)
Definition print_welcome_message {S : Type} : M S unit :=
  print ("ðŸ¤– " ++ repeat_str "=" 60) ;;
  print "    Welcome to the Advanced AI Chatbot!" ;;
  print (repeat_str "=" 64) ;;
  print EmptyString ;;
  print "âœ¨ Features:" ;;
  print "   â€¢ Powered by Google's Gemini AI model" ;;
  print "   â€¢ Natural conversation with memory" ;;
  print "   â€¢ Type 'help' for commands" ;;
  print "   â€¢ Type 'quit' or 'exit' to leave" ;;
  print EmptyString ;;
  print "ðŸ’¬ Start chatting below:" ;;
  print (repeat_str "-" 64).

(** [print_help]. *)
Definition print_help {S : Type} : M S unit :=
  print EmptyString ;;
  print "ðŸ”§ Available Commands:" ;;
  print "   help        - Show this help message" ;;
  print "   clear       - Clear conversation history" ;;
  print "   summary     - Show conversation summary" ;;
  print "   save        - Save conversation to file" ;;
  print "   quit/exit   - Exit the chatbot" ;;
  print EmptyString.

(** [print_typing_animation(text)]: one write per character, then the end of
    the line. *)
Fixpoint print_chars {S : Type} (text : list string) : M S unit :=
  match text with
  | [] => ret tt
  | char :: rest => print_end char EmptyString ;; print_chars rest
  end.

Definition print_typing_animation {py : StrOps} {S : Type} (text : string) : M S unit :=
  print_chars (chars text) ;;
  print EmptyString.

(** What the outside world answers during one round of the loop: how
    [input("You: ")] ends, the clock at the first and second message made (or at
    the default file name), the clock at each position of the saving loop, and
    how the remote call, the new chat session and the file write end. *)
Record Turn : Type := mkTurn {
  typed : Result string;
  now_first : datetime;
  now_second : datetime;
  now_saving : nat -> datetime;
  replied : Result string;
  restarted : Result unit;
  written : Result unit
}.

Inductive LoopControl : Type := Continue | Break.

(** The statements inside [try:] of the loop. *)
Definition loop_try {py : StrOps} (t : Turn) : M AdvancedChatbot LoopControl :=
  print_end "You: " EmptyString ;;
  line <- extern (typed t) ;;
  let user_input := strip line in
  if user_input =? EmptyString then ret Continue
  else if existsb (String.eqb (lower user_input)) ["quit"; "exit"; "bye"] then
    print "ðŸ¤– Thanks for chatting! Have a great day! ðŸ‘‹" ;;
    ret Break
  else if lower user_input =? "help" then
    print_help ;;
    ret Continue
  else if lower user_input =? "clear" then
    clear_history (restarted t) (now_first t) ;;
    ret Continue
  else if lower user_input =? "summary" then
    summary <- get_conversation_summary ;;
    print ("ðŸ“Š " ++ summary) ;;
    ret Continue
  else if lower user_input =? "save" then
    save_conversation None (now_first t) (now_saving t) (written t) ;;
    ret Continue
  else
    response <- get_ai_response user_input (now_first t) (now_second t) (replied t) ;;
    print_end "ðŸ¤–" " " ;;
    print_typing_animation response ;;
    ret Continue.

(** One round of [while True:] with its three [except] clauses. *)
Definition loop_round {py : StrOps} (t : Turn) : M AdvancedChatbot LoopControl :=
  fun self w =>
    match loop_try t self w with
    | (Returned c, self', w') => (Returned c, self', w')
    | (Raised e, self', w') =>
        if is_KeyboardInterrupt e then
          (print "ðŸ¤– Chat interrupted. Thanks for chatting! ðŸ‘‹" ;;
           ret Break) self' w'
        else if is_EOFError e then
          (print "ðŸ¤– Input ended. Goodbye! ðŸ‘‹" ;;
           ret Break) self' w'
        else if isinstance_Exception e then
          (print ("âŒ An unexpected error occurred: " ++ str e) ;;
           print "Please try again or type 'quit' to exit." ;;
           ret Continue) self' w'
        else (Raised e, self', w')
    end.

(** The terminal input has ended: [input] raises [EOFError]. *)
Definition end_of_input : Turn :=
  let epoch := mkDatetime 1970 1 1 0 0 0 0 in
  mkTurn (Raised (mkExc EOFError EmptyString)) epoch epoch (fun _ => epoch)
    (Raised (mkExc EOFError EmptyString)) (Raised (mkExc EOFError EmptyString)) (Raised (mkExc EOFError EmptyString)).

(** [while True:] over the rounds the outside world answers; after the last
    one the input has ended. *)
Fixpoint loop {py : StrOps} (script : list Turn) : M AdvancedChatbot unit :=
  match script with
  | [] => loop_round end_of_input ;; ret tt
  | t :: later =>
      c <- loop_round t ;;
      match c with
      | Break => ret tt
      | Continue => loop later
      end
  end.

(** What the outside world answers while the chatbot is made. *)
Record Startup : Type := mkStartup {
  GEMINI_API_KEY : option string;
  connected : Result unit;
  started : Result unit;
  now_started : datetime
}.

(** [main]. *)
Definition main {py : StrOps} (boot : Startup) (script : list Turn) : M unit unit :=
  print_welcome_message ;;
  fun _ w =>
    match __init__ None "gemini-1.5-flash" (GEMINI_API_KEY boot) (connected boot)
            (started boot) (now_started boot) tt w with
    | (Raised e, _, w') =>
        if is_KeyboardInterrupt e then print "ðŸ‘‹ Goodbye!" tt w'
        else (Raised e, tt, w')
    | (Returned chatbot, _, w') =>
        let '(r, _, w'') :=
          (print "ðŸŽ¯ Chatbot initialized successfully!" ;;
           print "ðŸ’¡ Tip: Try asking me about anything - I can help with various topics!" ;;
           print EmptyString ;;
           loop script) chatbot w' in
        (r, tt, w'')
    end.

(** ** Vocabulary of the properties *)

(** The three parts of what a computation leaves behind. *)
Definition result_of {S A : Type} (r : Result A * S * World) : Result A := fst (fst r).
Definition object_of {S A : Type} (r : Result A * S * World) : S := snd (fst r).
Definition world_of {S A : Type} (r : Result A * S * World) : World := snd r.

(** The world after more texts were written to the output, and a text
    printed as one line. *)
Definition printed (w : World) (texts : list string) : World :=
  mkWorld (List.app (stdout w) texts) (disk w).

Definition line (text : string) : string := text ++ newline.

(** What [print_welcome_message] writes, and what is written when no API key
    is found. *)
Definition welcome_texts : list string :=
  stdout (world_of (print_welcome_message tt (mkWorld [] []))).

Definition missing_key_texts : list string :=
  [ line "âŒ Error: Google AI API key not found!";
    line "Please set your API key in one of these ways:";
    line "1. Set the GEMINI_API_KEY environment variable";
    line "2. Pass the API key when creating the chatbot";
    line (newline ++ "You can get an API key from: https://makersuite.google.com/app/apikey") ].

(** The exception of [sys.exit(1)]. *)
Definition exit_1 : BaseException := mkExc (SystemExit 1) "1".

(** The chatbot holds a chat handle. *)
Definition has_session (self : AdvancedChatbot) : bool :=
  match chat_session self with
  | Some _ => true
  | None => false
  end.

(** The messages of the two kinds a turn makes, with the timestamp the
    constructor gives them. *)
Definition user_message_at (now : datetime) (text : string) : ChatMessage :=
  mkChatMessage "user" text (Some now).

Definition assistant_message_at (now : datetime) (text : string) : ChatMessage :=
  mkChatMessage "assistant" text (Some now).

Definition system_message_at (now : datetime) (text : string) : ChatMessage :=
  mkChatMessage "system" text (Some now).

(** Number of messages of a role in a transcript. *)
Fixpoint count_role (r : string) (history : list ChatMessage) : nat :=
  match history with
  | [] => 0
  | msg :: rest => (if role msg =? r then 1 else 0) + count_role r rest
  end.

(** The text that reports the numbers of user and assistant messages. *)
Definition stats_text (users assistants : nat) : string :=
  "Conversation stats: " ++ str_of_nat users ++ " user messages, " ++
  str_of_nat assistants ++ " AI responses".

(** The three categories of a failed remote call, read off the error text. *)
Inductive FailureKind : Type := RateLimited | Connectivity | Unknown.

Definition mentions_quota_or_limit {py : StrOps} (e : BaseException) : bool :=
  contains "quota" (lower (str e)) || contains "limit" (lower (str e)).

Definition classify {py : StrOps} (e : BaseException) : FailureKind :=
  if mentions_quota_or_limit e then RateLimited
  else if contains "api" (lower (str e)) then Connectivity
  else Unknown.

(** The explanation given for a failure of each category. *)
Definition explanation (k : FailureKind) (e : BaseException) : string :=
  match k with
  | RateLimited =>
      "I'm getting too many requests right now. Please wait a moment and try again."
  | Connectivity =>
      "I'm having trouble connecting to my brain right now. Error: " ++ str e
  | Unknown => "Something unexpected happened: " ++ str e
  end.

(** The texts that explain a failure of category [k], whatever the error. *)
Definition explains (k : FailureKind) (answer : string) : Prop :=
  exists e : BaseException, answer = explanation k e.

(** The transcript invariant: the first message, if there is one, is the
    system message with the persona text, and no later message has the system
    role. *)
Definition transcript_ok (self : AdvancedChatbot) : Prop :=
  match conversation_history self with
  | [] => True
  | first :: later =>
      role first = "system" /\ content first = system_prompt self /\
      Forall (fun msg => role msg <> "system") later
  end.

(** A transcript that starts with its system message. *)
Definition transcript_started (self : AdvancedChatbot) : Prop :=
  conversation_history self <> [] /\ transcript_ok self.

(** The name of the file [save_conversation] writes. *)
Definition saved_name (filename : option string) (now : datetime) : string :=
  match filename with
  | None => "chatbot_conversation_" ++ strftime_Ymd_HMS now ++ ".json"
  | Some name => name
  end.

(** Value of a key in a saved object. *)
Fixpoint json_get (key : string) (obj : JsonObject) : option string :=
  match obj with
  | [] => None
  | (k, v) :: rest => if k =? key then Some v else json_get key rest
  end.

(** The saved object [obj] stands for the message [msg]: exactly the keys
    [role], [content] and [timestamp], the first two with the values of the
    message, the third with the text of a time, which is the timestamp of the
    message when it has one. *)
Definition saved_as (obj : JsonObject) (msg : ChatMessage) : Prop :=
  map fst obj = ["role"; "content"; "timestamp"] /\
  json_get "role" obj = Some (role msg) /\
  json_get "content" obj = Some (content msg) /\
  exists t : datetime,
    json_get "timestamp" obj = Some (isoformat t) /\
    forall t' : datetime, timestamp msg = Some t' -> t = t'.

(** The messages that are not system messages, in transcript order. *)
Definition non_system (history : list ChatMessage) : list ChatMessage :=
  filter (fun msg => negb (role msg =? "system")) history.

(** The operations on a session after it is made, each with what the outside
    world answers while it runs. *)
Inductive Operation : Type :=
| Send (user_text : string) (now_user now_ai : datetime) (reply : Result string)
| Summary
| Clear (start : Result unit) (now : datetime)
| Persist (filename : option string) (now : datetime) (now_at : nat -> datetime)
    (written : Result unit).

Definition perform {py : StrOps} (op : Operation) : M AdvancedChatbot unit :=
  match op with
  | Send user_text now_user now_ai reply =>
      get_ai_response user_text now_user now_ai reply ;; ret tt
  | Summary => get_conversation_summary ;; ret tt
  | Clear start now => clear_history start now
  | Persist filename now now_at written => save_conversation filename now now_at written
  end.

(** The sessions a process can hold: the one [__init__] returned, and any
    session left by an operation that returned on such a session. *)
Inductive reachable {py : StrOps} : AdvancedChatbot -> Prop :=
| reachable_init (key : option string) (model : string) (getenv : option string)
    (connect start : Result unit) (now : datetime) (w : World)
    (chatbot : AdvancedChatbot) :
    result_of (__init__ key model getenv connect start now tt w) = Returned chatbot ->
    reachable chatbot
| reachable_step (self : AdvancedChatbot) (op : Operation) (w : World) :
    reachable self ->
    result_of (perform op self w) = Returned tt ->
    reachable (object_of (perform op self w)).

(** Values for concrete runs. *)
Module Sample.

Definition noon : datetime := mkDatetime 2025 1 15 12 0 0 0.
Definition later : datetime := mkDatetime 2025 1 15 12 0 7 2500.

Definition nothing : World := mkWorld [] [].

(** The session [__init__] returns. *)
Definition fresh : AdvancedChatbot :=
  Eval cbv in
    match result_of (__init__ (Some "key") "gemini-1.5-flash" None
                       (Returned tt) (Returned tt) noon tt nothing) with
    | Returned chatbot => chatbot
    | Raised _ => mkAdvancedChatbot None EmptyString [] None EmptyString
    end.

(** That session after one completed turn. *)
Definition talked : AdvancedChatbot :=
  mkAdvancedChatbot (api_key fresh) (model fresh)
    [system_message_at noon (system_prompt fresh); user_message_at noon "Hello";
     assistant_message_at later "Hi there!"]
    (chat_session fresh) (system_prompt fresh).

Definition boom : BaseException := mkExc OtherException "boom".
Definition quota_exceeded : BaseException :=
  mkExc OtherException "429 Quota exceeded for API requests".
Definition api_down : BaseException := mkExc OtherException "API unreachable".
Definition disk_full : BaseException :=
  mkExc OtherException "[Errno 28] No space left on device".

Definition no_key : Startup :=
  mkStartup (Some EmptyString) (Returned tt) (Returned tt) noon.

End Sample.

(** ** Vocabulary of the command loop and of the sessions *)

(** The chatbot with another transcript. *)
Definition with_history (self : AdvancedChatbot) (history : list ChatMessage) :
    AdvancedChatbot :=
  mkAdvancedChatbot (api_key self) (model self) history (chat_session self)
    (system_prompt self).

(** What [_typing_indicator] writes. *)
Definition typing_texts : list string :=
  ["ðŸ¤– Thinking"; "."; "."; "."; "."; newline].

(** The remote call ends in a way [get_ai_response] answers: it returns, or it
    raises an [Exception]. *)
Definition answered (reply : Result string) : bool :=
  match reply with
  | Returned _ => true
  | Raised e => isinstance_Exception e
  end.

(** The text [get_ai_response] then returns, and the messages the transcript
    gains. *)
Definition answer_of {py : StrOps} (reply : Result string) : string :=
  match reply with
  | Returned text => text
  | Raised e => explanation (classify e) e
  end.

Definition gained_by (user_text : string) (now_user now_ai : datetime)
    (reply : Result string) : list ChatMessage :=
  match reply with
  | Returned text => [user_message_at now_user user_text; assistant_message_at now_ai text]
  | Raised _ => [user_message_at now_user user_text]
  end.

(** The words the loop treats as commands, compared after lower-casing. *)
Definition command_words : list string :=
  ["quit"; "exit"; "bye"; "help"; "clear"; "summary"; "save"].

Definition is_command {py : StrOps} (user_input : string) : bool :=
  existsb (String.eqb (lower user_input)) command_words.

(** The texts of one character each that [print_typing_animation] writes
    before the end of the line. *)
Definition char_texts {py : StrOps} (text : string) : list string :=
  map (fun char => char ++ EmptyString) (chars text).

(** The texts the loop writes when it ends. *)
Definition farewell_text : string := line "ðŸ¤– Thanks for chatting! Have a great day! ðŸ‘‹".
Definition interrupted_text : string := line "ðŸ¤– Chat interrupted. Thanks for chatting! ðŸ‘‹".
Definition input_ended_text : string := line "ðŸ¤– Input ended. Goodbye! ðŸ‘‹".

(** A conversation after the system message: turns of a user message alone
    (the remote call failed) or of a user message and the assistant message
    that answers it. *)
Inductive turns : list ChatMessage -> Prop :=
| turns_none : turns []
| turns_unanswered (earlier : list ChatMessage) (question : ChatMessage) :
    turns earlier ->
    role question = "user" ->
    turns (earlier ++ [question])%list
| turns_answered (earlier : list ChatMessage) (question answer : ChatMessage) :
    turns earlier ->
    role question = "user" ->
    role answer = "assistant" ->
    turns (earlier ++ [question; answer])%list.

(** Every message of the transcript has a timestamp. *)
Definition all_stamped (history : list ChatMessage) : Prop :=
  Forall (fun msg => timestamp msg <> None) history.

(** A conversation as the program builds it: the system message, then
    turns, every message with its timestamp. *)
Definition conversation_ok (self : AdvancedChatbot) : Prop :=
  exists (first : ChatMessage) (body : list ChatMessage),
    conversation_history self = first :: body /\
    role first = "system" /\
    turns body /\
    all_stamped (first :: body).

(** What a typed line asks for, as the loop reads it: the line is stripped,
    command words are compared after lower-casing, anything else is said to the
    chatbot as it was typed (stripped). *)
Inductive Command : Type :=
| Nothing
| Quit
| Help
| DoClear
| DoSummary
| DoSave
| Say (user_input : string).

Definition parse {py : StrOps} (typed_line : string) : Command :=
  let user_input := strip typed_line in
  if user_input =? EmptyString then Nothing
  else if existsb (String.eqb (lower user_input)) ["quit"; "exit"; "bye"] then Quit
  else if lower user_input =? "help" then Help
  else if lower user_input =? "clear" then DoClear
  else if lower user_input =? "summary" then DoSummary
  else if lower user_input =? "save" then DoSave
  else Say user_input.

(** What [print_help] writes. *)
Definition help_texts : list string :=
  stdout (world_of (print_help tt (mkWorld [] []))).

(** The prompt of [input("You: ")]. *)
Definition prompt : string := "You: ".

(** A turn at which a blank line is typed. *)
Definition blank_turn {py : StrOps} (t : Turn) : Prop :=
  exists typed_line : string,
    typed t = Returned typed_line /\ strip typed_line = EmptyString.

(** Turns for concrete runs. *)
Module SampleTurns.

(** The line is typed; the remote call would answer, the chat would restart
    and the file would be written. *)
Definition typing (typed_line : string) : Turn :=
  mkTurn (Returned typed_line) Sample.noon Sample.later (fun _ => Sample.noon)
    (Returned "Hi there!") (Returned tt) (Returned tt).

(** The line is typed; the remote call, the restart of the chat and the
    writing of the file would all raise [e]. *)
Definition failing (typed_line : string) (e : BaseException) : Turn :=
  mkTurn (Returned typed_line) Sample.noon Sample.later (fun _ => Sample.noon)
    (Raised e) (Raised e) (Raised e).

(** Typing is ended by [e]. *)
Definition stopped (e : BaseException) : Turn :=
  mkTurn (Raised e) Sample.noon Sample.later (fun _ => Sample.noon)
    (Returned "Hi there!") (Returned tt) (Returned tt).

Definition interrupt : BaseException := mkExc KeyboardInterrupt EmptyString.

End SampleTurns.

(** What is written before the answer is shown. *)
Definition answer_mark : string := "ðŸ¤–" ++ " ".

(** The text of the summary of a chatbot. *)
Definition summary_text (self : AdvancedChatbot) : string :=
  if (List.length (conversation_history self) <=? 1)%nat then "No conversation yet."
  else stats_text (count_role "user" (conversation_history self))
                  (count_role "assistant" (conversation_history self)).

(** The chatbot after a clear that restarted the chat at time [now]. *)
Definition cleared (self : AdvancedChatbot) (now : datetime) : AdvancedChatbot :=
  mkAdvancedChatbot (api_key self) (model self)
    [system_message_at now (system_prompt self)]
    (Some (mkChatSession (model self) (system_prompt self))) (system_prompt self).

(** * Properties *)

(** ** Python strings *)

Lemma lower_char_idem (c : ascii) : lower_char (lower_char c) = lower_char c.
Proof.
  destruct c as [[] [] [] [] [] [] [] []]; reflexivity.
Qed.

Example lower_example : lower "API Quota EXCEEDED: 429!" = "api quota exceeded: 429!".
Proof. reflexivity. Qed.

Example contains_example :
  contains "limit" "rate limit reached" = true /\ contains "limit" "lim it" = false.
Proof. split; reflexivity. Qed.

Example strip_example : strip "  save 	" = "save" /\ strip "   " = EmptyString /\ strip "a b" = "a b".
Proof. repeat split; reflexivity. Qed.

Example isoformat_example :
  isoformat Sample.noon = "2025-01-15T12:00:00" /\
  isoformat Sample.later = "2025-01-15T12:00:07.002500" /\
  strftime_Ymd_HMS Sample.later = "20250115_120007".
Proof. repeat split; reflexivity. Qed.

Example str_of_nat_example : str_of_nat 0 = "0" /\ str_of_nat 12 = "12".
Proof. split; reflexivity. Qed.

(** ** Transcripts *)

Lemma count_role_app (r : string) (h1 h2 : list ChatMessage) :
  count_role r (h1 ++ h2)%list = count_role r h1 + count_role r h2.
Proof.
  induction h1 as [|msg rest IH]; simpl.
  - reflexivity.
  - rewrite IH. lia.
Qed.

Lemma filter_role_length (r : string) (h : list ChatMessage) :
  List.length (filter (fun msg => role msg =? r) h) = count_role r h.
Proof.
  induction h as [|msg rest IH]; simpl.
  - reflexivity.
  - destruct (role msg =? r); simpl; rewrite IH; reflexivity.
Qed.

(** ** Explanations of failures *)

(** No text explains failures of two categories. *)
Lemma explains_unique (k1 k2 : FailureKind) (answer : string) :
  explains k1 answer -> explains k2 answer -> k1 = k2.
Proof.
  intros [e1 H1] [e2 H2]. subst answer.
  destruct k1, k2; try reflexivity; simpl in H2; discriminate H2.
Qed.

Lemma classify_explains {py : StrOps} (e : BaseException) : explains (classify e) (explanation (classify e) e).
Proof. exists e. reflexivity. Qed.

(** A failed remote call, run to its end: the user message stays in the
    transcript, the explanation is returned, nothing else changes but the
    output. *)
Lemma get_ai_response_failure {py : StrOps} (self : AdvancedChatbot) (w : World) (user_text : string)
    (now_user now_ai : datetime) (e : BaseException) :
  has_session self = true ->
  isinstance_Exception e = true ->
  let run := get_ai_response user_text now_user now_ai (Raised e) self w in
  result_of run = Returned (explanation (classify e) e) /\
  conversation_history (object_of run) =
    (conversation_history self ++ [user_message_at now_user user_text])%list.
Proof.
  intros Hs He run. subst run.
  destruct self as [k m h [c|] p]; [|discriminate Hs].
  unfold get_ai_response, try_except_Exception, bind. cbn.
  rewrite He. cbn.
  destruct (contains "quota" (lower (str e)) || contains "limit" (lower (str e))) eqn:Hq.
  - unfold classify, mentions_quota_or_limit. rewrite Hq. split; reflexivity.
  - destruct (contains "api" (lower (str e))) eqn:Ha;
      unfold classify, mentions_quota_or_limit; rewrite Hq, Ha; split; reflexivity.
Qed.

(** A successful remote call, run to its end. *)
Lemma send_turn_success {py : StrOps} (self : AdvancedChatbot) (w : World) (user_text text : string)
    (now_user now_ai : datetime) :
  has_session self = true ->
  let run := get_ai_response user_text now_user now_ai (Returned text) self w in
  result_of run = Returned text /\
  conversation_history (object_of run) =
    (conversation_history self ++
     [user_message_at now_user user_text; assistant_message_at now_ai text])%list.
Proof.
  intros Hs run. subst run.
  destruct self as [k m h [c|] p]; [|discriminate Hs].
  cbn. split; [reflexivity|].
  rewrite <- app_assoc. reflexivity.
Qed.

(** ** Conversational turns *)

(** An interrupt during the remote call is not an [Exception]: it is not
    caught here but by the command loop, which ends. *)
Example interrupt_passes_through_send :
  result_of (get_ai_response "Hello" Sample.noon Sample.later
               (Raised (mkExc KeyboardInterrupt EmptyString)) Sample.fresh Sample.nothing) =
  Raised (mkExc KeyboardInterrupt EmptyString).
Proof. reflexivity. Qed.

(** C1.  After a send whose remote call returns [text], for every user text
    (so for every non-empty one): [send] returns [text]; the transcript is the
    old one followed by the user message with the user text and then the
    assistant message with [text], so it is longer by exactly 2; the numbers
    of user and of assistant messages, which the summary reports, each grow
    by one. *)
Theorem send_success_appends_user_then_assistant {py : StrOps}
    (self : AdvancedChatbot) (w : World) (user_text text : string)
    (now_user now_ai : datetime) :
  has_session self = true ->
  let run := get_ai_response user_text now_user now_ai (Returned text) self w in
  result_of run = Returned text /\
  conversation_history (object_of run) =
    (conversation_history self ++
     [user_message_at now_user user_text; assistant_message_at now_ai text])%list /\
  List.length (conversation_history (object_of run)) =
    List.length (conversation_history self) + 2 /\
  count_role "user" (conversation_history (object_of run)) =
    count_role "user" (conversation_history self) + 1 /\
  count_role "assistant" (conversation_history (object_of run)) =
    count_role "assistant" (conversation_history self) + 1.
Proof.
  intros Hs run.
  destruct (send_turn_success self w user_text text now_user now_ai Hs) as [Hres Hhist].
  fold run in Hres, Hhist.
  split; [exact Hres|]. split; [exact Hhist|].
  rewrite Hhist. rewrite length_app, !count_role_app. simpl.
  repeat split; lia.
Qed.

Lemma send_success_appends_user_then_assistant_witness :
  has_session Sample.fresh = true /\
  result_of (get_ai_response "Hello" Sample.noon Sample.later (Returned "Hi there!")
               Sample.fresh Sample.nothing) = Returned "Hi there!" /\
  conversation_history
    (object_of (get_ai_response "Hello" Sample.noon Sample.later (Returned "Hi there!")
                  Sample.fresh Sample.nothing)) =
  conversation_history Sample.talked.
Proof.
  split; [reflexivity|].
  destruct (send_success_appends_user_then_assistant Sample.fresh Sample.nothing
              "Hello" "Hi there!" Sample.noon Sample.later eq_refl) as [Hres [Hhist _]].
  split; [exact Hres | exact Hhist].
Defined.

(** C2.  When the remote call of a send fails with an exception, for every
    user text: [send] does not raise but returns; what it returns is the
    explanation of the category (rate limited, connectivity or unknown) the
    lower-cased error text falls in, whatever the lower-casing of [str] does;
    the transcript gains the user message only, so the explanation is not
    appended as an assistant message. *)
Theorem send_failure_is_caught_and_explained {py : StrOps}
    (self : AdvancedChatbot) (w : World) (user_text : string)
    (now_user now_ai : datetime) (e : BaseException) :
  has_session self = true ->
  isinstance_Exception e = true ->
  let run := get_ai_response user_text now_user now_ai (Raised e) self w in
  result_of run = Returned (explanation (classify e) e) /\
  conversation_history (object_of run) =
    (conversation_history self ++ [user_message_at now_user user_text])%list /\
  count_role "assistant" (conversation_history (object_of run)) =
    count_role "assistant" (conversation_history self).
Proof.
  intros Hs He run.
  destruct (get_ai_response_failure self w user_text now_user now_ai e Hs He)
    as [Hres Hhist].
  fold run in Hres, Hhist.
  split; [exact Hres|]. split; [exact Hhist|].
  rewrite Hhist, count_role_app. simpl. lia.
Qed.

Lemma send_failure_is_caught_and_explained_witness :
  has_session Sample.talked = true /\
  isinstance_Exception Sample.api_down = true /\
  result_of (get_ai_response "Are you there?" Sample.noon Sample.later
               (Raised Sample.api_down) Sample.talked Sample.nothing) =
  Returned "I'm having trouble connecting to my brain right now. Error: API unreachable".
Proof.
  split; [reflexivity|]. split; [reflexivity|].
  exact (proj1 (send_failure_is_caught_and_explained Sample.talked Sample.nothing
                  "Are you there?" Sample.noon Sample.later Sample.api_down
                  eq_refl eq_refl)).
Defined.

(** C3.  The classification of a failed remote call is total and exclusive:
    the answer of [send] explains the category of the error, and it explains
    no other category.  When the lower-cased error text contains "quota" or
    "limit", the category is rate limited and the answer differs from the
    answer to every connectivity failure.  This holds whatever the
    lower-casing of [str] does. *)
Theorem failure_classification_total_and_exclusive {py : StrOps}
    (self : AdvancedChatbot) (w : World) (user_text : string)
    (now_user now_ai : datetime) (e : BaseException) :
  has_session self = true ->
  isinstance_Exception e = true ->
  exists answer : string,
    result_of (get_ai_response user_text now_user now_ai (Raised e) self w) =
      Returned answer /\
    explains (classify e) answer /\
    (forall k : FailureKind, explains k answer -> k = classify e) /\
    (contains "quota" (lower (str e)) || contains "limit" (lower (str e)) = true ->
     classify e = RateLimited /\
     forall (self' : AdvancedChatbot) (w' : World) (user_text' : string)
            (now_user' now_ai' : datetime) (e' : BaseException),
       has_session self' = true ->
       isinstance_Exception e' = true ->
       classify e' = Connectivity ->
       result_of (get_ai_response user_text' now_user' now_ai' (Raised e') self' w') <>
       Returned answer).
Proof.
  intros Hs He.
  exists (explanation (classify e) e).
  split; [exact (proj1 (get_ai_response_failure self w user_text now_user now_ai e Hs He))|].
  split; [apply classify_explains|].
  split.
  - intros k Hk. exact (explains_unique _ _ _ Hk (classify_explains e)).
  - intros Hq.
    assert (Hc : classify e = RateLimited).
    { unfold classify, mentions_quota_or_limit. rewrite Hq. reflexivity. }
    split; [exact Hc|].
    intros self' w' user_text' now_user' now_ai' e' Hs' He' Hc' Heq.
    rewrite (proj1 (get_ai_response_failure self' w' user_text' now_user' now_ai' e'
                      Hs' He')) in Heq.
    injection Heq as Heq.
    assert (Hk : classify e' = classify e).
    { apply (explains_unique _ _ (explanation (classify e) e)).
      - rewrite <- Heq. apply classify_explains.
      - apply classify_explains. }
    rewrite Hc, Hc' in Hk. discriminate Hk.
Qed.

Lemma failure_classification_total_and_exclusive_witness :
  has_session Sample.talked = true /\
  isinstance_Exception Sample.quota_exceeded = true /\
  exists answer : string,
    result_of (get_ai_response "More?" Sample.noon Sample.later
                 (Raised Sample.quota_exceeded) Sample.talked Sample.nothing) =
      Returned answer /\
    explains RateLimited answer.
Proof.
  split; [reflexivity|]. split; [reflexivity|].
  destruct (failure_classification_total_and_exclusive Sample.talked Sample.nothing
              "More?" Sample.noon Sample.later Sample.quota_exceeded eq_refl eq_refl)
    as [answer [Hres [Hex _]]].
  exists answer. split; [exact Hres | exact Hex].
Defined.

(** ** The summary *)

Lemma stats_text_is_not_the_fixed_message (users assistants : nat) :
  stats_text users assistants <> "No conversation yet.".
Proof. unfold stats_text. simpl. discriminate. Qed.

(** [get_conversation_summary] run to its end. *)
Lemma get_conversation_summary_run (self : AdvancedChatbot) (w : World) :
  get_conversation_summary self w =
  (Returned
     (if (List.length (conversation_history self) <=? 1)%nat
      then "No conversation yet."
      else stats_text (count_role "user" (conversation_history self))
                      (count_role "assistant" (conversation_history self))),
   self, w).
Proof.
  unfold get_conversation_summary, bind, get_self, ret.
  destruct (List.length (conversation_history self) <=? 1)%nat; [reflexivity|].
  rewrite !filter_role_length. reflexivity.
Qed.

(** C10.  After a send whose remote call fails with an exception, for every
    user text: the transcript is the old one followed by the user message, so
    it is longer by exactly 1; no assistant message is added; the number of
    user messages grows by one, and the summary asked for next (on a
    transcript that was not empty) reports that number, failed turn
    included. *)
Theorem failed_send_keeps_the_user_message {py : StrOps}
    (self : AdvancedChatbot) (w : World) (user_text : string)
    (now_user now_ai : datetime) (e : BaseException) :
  has_session self = true ->
  isinstance_Exception e = true ->
  let run := get_ai_response user_text now_user now_ai (Raised e) self w in
  conversation_history (object_of run) =
    (conversation_history self ++ [user_message_at now_user user_text])%list /\
  List.length (conversation_history (object_of run)) =
    List.length (conversation_history self) + 1 /\
  count_role "assistant" (conversation_history (object_of run)) =
    count_role "assistant" (conversation_history self) /\
  count_role "user" (conversation_history (object_of run)) =
    count_role "user" (conversation_history self) + 1 /\
  (conversation_history self <> [] ->
   result_of (get_conversation_summary (object_of run) (world_of run)) =
     Returned (stats_text (count_role "user" (conversation_history self) + 1)
                          (count_role "assistant" (conversation_history self)))).
Proof.
  intros Hs He run.
  destruct (get_ai_response_failure self w user_text now_user now_ai e Hs He)
    as [_ Hhist].
  fold run in Hhist.
  split; [exact Hhist|].
  rewrite get_conversation_summary_run, Hhist.
  rewrite length_app, !count_role_app. simpl.
  split; [reflexivity|]. split; [lia|]. split; [reflexivity|].
  intros Hne.
  destruct (conversation_history self) as [|first later]; [contradiction|].
  simpl.
  replace (List.length later + 1 <=? 0)%nat with false
    by (symmetry; apply Nat.leb_gt; lia).
  unfold result_of. simpl. rewrite Nat.add_0_r. reflexivity.
Qed.

Lemma failed_send_keeps_the_user_message_witness :
  has_session Sample.talked = true /\
  isinstance_Exception Sample.boom = true /\
  conversation_history Sample.talked <> [] /\
  let run := get_ai_response "Again" Sample.noon Sample.later (Raised Sample.boom)
               Sample.talked Sample.nothing in
  result_of (get_conversation_summary (object_of run) (world_of run)) =
  Returned "Conversation stats: 2 user messages, 1 AI responses".
Proof.
  split; [reflexivity|]. split; [reflexivity|]. split; [discriminate|].
  apply (failed_send_keeps_the_user_message Sample.talked Sample.nothing "Again"
           Sample.noon Sample.later Sample.boom eq_refl eq_refl).
  discriminate.
Defined.

(** ** Making the session *)

(** With a credential, a client that connects and a chat session that
    starts, [__init__] returns a chatbot whose transcript is the system
    message alone. *)
Lemma init_succeeds (key : option string) (model : string) (getenv : option string)
    (now : datetime) (w : World) :
  truthy (or_else key getenv) = true ->
  exists (chatbot : AdvancedChatbot) (w' : World),
    __init__ key model getenv (Returned tt) (Returned tt) now tt w =
      (Returned chatbot, tt, w') /\
    conversation_history chatbot = [system_message_at now (system_prompt chatbot)] /\
    has_session chatbot = true /\
    api_key chatbot = or_else key getenv /\
    disk w' = disk w.
Proof.
  intros Hkey.
  unfold __init__, _initialize_client, _start_chat_session, try_except_Exception, bind.
  cbn. rewrite Hkey. cbn.
  eexists. eexists. split; [reflexivity|].
  cbn. repeat split; reflexivity.
Qed.

(** Whenever [__init__] returns, the chatbot holds a chat session and its
    transcript is the system message alone. *)
Lemma init_returns (key : option string) (model : string) (getenv : option string)
    (connect start : Result unit) (now : datetime) (w : World)
    (chatbot : AdvancedChatbot) :
  result_of (__init__ key model getenv connect start now tt w) = Returned chatbot ->
  conversation_history chatbot = [system_message_at now (system_prompt chatbot)] /\
  has_session chatbot = true.
Proof.
  unfold __init__, _initialize_client, _start_chat_session, try_except_Exception, bind.
  cbn.
  destruct (truthy (or_else key getenv)); cbn; [|discriminate].
  destruct connect as [[]|e]; cbn.
  - destruct start as [[]|e']; cbn.
    + intros H. injection H as <-. split; reflexivity.
    + destruct (isinstance_Exception e'); cbn; discriminate.
  - destruct (isinstance_Exception e); cbn; discriminate.
Qed.

(** C8.  The summary is pure: it returns a text and leaves the chatbot and
    the world as they were.  The text is the fixed "No conversation yet."
    exactly when the transcript has at most one message; otherwise it reports
    the numbers of user and of assistant messages.  In a session just made,
    after a send of "Hello" that succeeds, the summary reports 1 user message
    and 1 AI response. *)
Theorem summary_is_pure_and_counts {py : StrOps} :
  (forall (self : AdvancedChatbot) (w : World),
     exists text : string,
       get_conversation_summary self w = (Returned text, self, w) /\
       (text = "No conversation yet." <->
        List.length (conversation_history self) <= 1) /\
       (1 < List.length (conversation_history self) ->
        text = stats_text (count_role "user" (conversation_history self))
                          (count_role "assistant" (conversation_history self)))) /\
  (forall (key : option string) (model : string) (getenv : option string)
          (now now_user now_ai : datetime) (w : World) (text : string),
     truthy (or_else key getenv) = true ->
     exists (chatbot : AdvancedChatbot) (w' : World),
       __init__ key model getenv (Returned tt) (Returned tt) now tt w =
         (Returned chatbot, tt, w') /\
       let run := get_ai_response "Hello" now_user now_ai (Returned text) chatbot w' in
       result_of run = Returned text /\
       result_of (get_conversation_summary (object_of run) (world_of run)) =
         Returned "Conversation stats: 1 user messages, 1 AI responses").
Proof.
  split.
  - intros self w. rewrite get_conversation_summary_run.
    eexists. split; [reflexivity|].
    destruct (Nat.leb_spec (List.length (conversation_history self)) 1) as [Hle|Hgt].
    + split; [split; [intros _; exact Hle | reflexivity]|]. lia.
    + split; [|reflexivity].
      split.
      * intros H. exfalso. exact (stats_text_is_not_the_fixed_message _ _ H).
      * lia.
  - intros key model getenv now now_user now_ai w text Hkey.
    destruct (init_succeeds key model getenv now w Hkey)
      as [chatbot [w' [Hinit [Hhist [Hs _]]]]].
    exists chatbot, w'. split; [exact Hinit|].
    intros run.
    destruct (send_turn_success chatbot w' "Hello" text now_user now_ai Hs)
      as [Hres Hhist'].
    fold run in Hres, Hhist'.
    split; [exact Hres|].
    rewrite get_conversation_summary_run, Hhist', Hhist. reflexivity.
Qed.

Lemma summary_is_pure_and_counts_witness :
  truthy (or_else None (Some "secret")) = true /\
  exists (chatbot : AdvancedChatbot) (w' : World),
    __init__ None "gemini-1.5-flash" (Some "secret") (Returned tt) (Returned tt)
      Sample.noon tt Sample.nothing = (Returned chatbot, tt, w') /\
    result_of
      (get_conversation_summary
         (object_of (get_ai_response "Hello" Sample.noon Sample.later
                       (Returned "Hi there!") chatbot w'))
         (world_of (get_ai_response "Hello" Sample.noon Sample.later
                      (Returned "Hi there!") chatbot w'))) =
    Returned "Conversation stats: 1 user messages, 1 AI responses".
Proof.
  split; [reflexivity|].
  destruct (proj2 summary_is_pure_and_counts None "gemini-1.5-flash" (Some "secret")
              Sample.noon Sample.noon Sample.later Sample.nothing "Hi there!" eq_refl)
    as [chatbot [w' [Hinit [_ Hsum]]]].
  exists chatbot, w'. split; [exact Hinit | exact Hsum].
Defined.

(** ** Clearing *)

(** [clear_history] when the new chat session starts. *)
Lemma clear_history_restarted (self : AdvancedChatbot) (w : World) (now : datetime) :
  clear_history (Returned tt) now self w =
  (Returned tt,
   mkAdvancedChatbot (api_key self) (model self)
     [system_message_at now (system_prompt self)]
     (Some (mkChatSession (model self) (system_prompt self))) (system_prompt self),
   printed w [line "ðŸ—‘ï¸ Conversation history cleared."]).
Proof. reflexivity. Qed.

(** [clear_history] when starting the new chat session raises an exception. *)
Lemma clear_history_not_restarted (self : AdvancedChatbot) (w : World) (now : datetime)
    (e : BaseException) :
  isinstance_Exception e = true ->
  clear_history (Raised e) now self w =
  (Raised exit_1,
   mkAdvancedChatbot (api_key self) (model self) [] (chat_session self)
     (system_prompt self),
   printed w [line ("âŒ Error starting chat session: " ++ str e)]).
Proof.
  intros He.
  unfold clear_history, _start_chat_session, try_except_Exception, bind. cbn.
  rewrite He. reflexivity.
Qed.

(** C5, as the code has it.  When the new chat session starts, [clear]
    returns, in every state, and leaves a transcript of length exactly 1 that
    holds only a fresh system message, after which the summary is the fixed
    "No conversation yet.".  When starting the new chat session raises an
    exception, [clear] prints the error and exits the process with status 1,
    the transcript being empty. *)
Theorem clear_resets_when_the_session_restarts
    (self : AdvancedChatbot) (w : World) (now : datetime) :
  (let run := clear_history (Returned tt) now self w in
   result_of run = Returned tt /\
   conversation_history (object_of run) = [system_message_at now (system_prompt self)] /\
   List.length (conversation_history (object_of run)) = 1 /\
   has_session (object_of run) = true /\
   result_of (get_conversation_summary (object_of run) (world_of run)) =
     Returned "No conversation yet.") /\
  (forall e : BaseException,
     isinstance_Exception e = true ->
     let run := clear_history (Raised e) now self w in
     result_of run = Raised exit_1 /\
     conversation_history (object_of run) = [] /\
     world_of run = printed w [line ("âŒ Error starting chat session: " ++ str e)]).
Proof.
  split.
  - cbv zeta. rewrite clear_history_restarted.
    repeat split.
  - intros e He. cbv zeta. rewrite (clear_history_not_restarted self w now e He).
    repeat split.
Qed.

Lemma clear_resets_when_the_session_restarts_witness :
  isinstance_Exception Sample.boom = true /\
  result_of (clear_history (Raised Sample.boom) Sample.noon Sample.talked Sample.nothing) =
    Raised exit_1.
Proof.
  split; [reflexivity|].
  exact (proj1 (proj2 (clear_resets_when_the_session_restarts Sample.talked
                         Sample.nothing Sample.noon) Sample.boom eq_refl)).
Defined.

(** C5 as stated fails: on a session with one completed turn, when starting
    the new chat session raises an error, [clear] does not return and the
    transcript does not have length 1. *)
Lemma clear_does_not_always_succeed :
  let run := clear_history (Raised Sample.boom) Sample.noon Sample.talked Sample.nothing in
  result_of run = Raised exit_1 /\
  result_of run <> Returned tt /\
  List.length (conversation_history (object_of run)) <> 1.
Proof.
  cbv zeta. rewrite (clear_history_not_restarted _ _ _ Sample.boom eq_refl).
  repeat split; discriminate.
Qed.

(** ** Saving *)

(** The saved objects stand for the messages that are not system messages. *)
Lemma conversation_data_saved_as (now_at : nat -> datetime) (history : list ChatMessage) :
  forall i : nat,
    Forall2 saved_as (conversation_data_from i now_at history) (non_system history).
Proof.
  induction history as [|msg rest IH]; intros i; simpl.
  - constructor.
  - destruct (role msg =? "system"); simpl.
    + apply IH.
    + constructor; [|apply IH].
      unfold saved_as. simpl. repeat split.
      destruct (timestamp msg) as [t|].
      * exists t. split; [reflexivity|]. intros t' H. injection H as H. exact H.
      * exists (now_at i). split; [reflexivity|]. intros t' H. discriminate H.
Qed.

Lemma conversation_data_no_system (now_at : nat -> datetime) (history : list ChatMessage) :
  forall i : nat,
    Forall (fun obj => json_get "role" obj <> Some "system")
      (conversation_data_from i now_at history).
Proof.
  induction history as [|msg rest IH]; intros i; simpl.
  - constructor.
  - destruct (role msg =? "system") eqn:Hrole; simpl.
    + apply IH.
    + constructor; [|apply IH].
      simpl. intros H. injection H as H.
      rewrite H in Hrole. discriminate Hrole.
Qed.

Lemma non_system_all (history : list ChatMessage) :
  Forall (fun msg => role msg <> "system") history -> non_system history = history.
Proof.
  unfold non_system.
  induction 1 as [|msg rest Hmsg _ IH]; simpl.
  - reflexivity.
  - apply String.eqb_neq in Hmsg. rewrite Hmsg. simpl.
    f_equal. exact IH.
Qed.

(** In a transcript that starts with its system message, the messages that
    are not system messages are all but the first. *)
Lemma non_system_started (self : AdvancedChatbot) :
  transcript_started self ->
  non_system (conversation_history self) = tl (conversation_history self).
Proof.
  unfold transcript_started, transcript_ok.
  destruct (conversation_history self) as [|first later]; intros [Hne Hok].
  - contradiction.
  - destruct Hok as [Hfirst [_ Hlater]].
    simpl. rewrite Hfirst. simpl. apply non_system_all. exact Hlater.
Qed.

(** [save_conversation] when the file is written. *)
Lemma save_conversation_written (self : AdvancedChatbot) (w : World)
    (filename : option string) (now : datetime) (now_at : nat -> datetime) :
  save_conversation filename now now_at (Returned tt) self w =
  (Returned tt, self,
   mkWorld
     (List.app (stdout w) [line ("ðŸ’¾ Conversation saved to " ++ saved_name filename now)])
     ((saved_name filename now,
       conversation_data_from 0 now_at (conversation_history self)) :: disk w)).
Proof. destruct filename; reflexivity. Qed.

(** [save_conversation] when writing the file raises an exception. *)
Lemma save_conversation_not_written (self : AdvancedChatbot) (w : World)
    (filename : option string) (now : datetime) (now_at : nat -> datetime)
    (e : BaseException) :
  isinstance_Exception e = true ->
  save_conversation filename now now_at (Raised e) self w =
  (Returned tt, self, printed w [line ("âŒ Error saving conversation: " ++ str e)]).
Proof.
  intros He.
  unfold save_conversation, try_except_Exception, bind. cbn.
  rewrite He. reflexivity.
Qed.

(** C6.  When the file is written, for every transcript: the file holds one
    object per message that is not a system message, in transcript order,
    each with exactly the keys role, content and timestamp, the role and the
    content being those of the message and the timestamp its text; no object
    has the system role.  In a session whose transcript starts with its system
    message, these are all messages but the first, and the number of objects
    is the length of the transcript minus 1. *)
Theorem persist_writes_the_non_system_messages
    (self : AdvancedChatbot) (w : World) (filename : option string)
    (now : datetime) (now_at : nat -> datetime) :
  let run := save_conversation filename now now_at (Returned tt) self w in
  result_of run = Returned tt /\
  exists data : list JsonObject,
    disk (world_of run) = (saved_name filename now, data) :: disk w /\
    Forall2 saved_as data (non_system (conversation_history self)) /\
    Forall (fun obj => json_get "role" obj <> Some "system") data /\
    (transcript_started self ->
     Forall2 saved_as data (tl (conversation_history self)) /\
     List.length data + 1 = List.length (conversation_history self)).
Proof.
  cbv zeta. rewrite save_conversation_written.
  split; [reflexivity|].
  exists (conversation_data_from 0 now_at (conversation_history self)).
  split; [reflexivity|].
  split; [apply conversation_data_saved_as|].
  split; [apply conversation_data_no_system|].
  intros Hstarted.
  pose proof (conversation_data_saved_as now_at (conversation_history self) 0) as Hsaved.
  rewrite (non_system_started self Hstarted) in Hsaved.
  split; [exact Hsaved|].
  rewrite (Forall2_length Hsaved).
  destruct Hstarted as [Hne _].
  destruct (conversation_history self); [contradiction|].
  simpl. lia.
Qed.

Lemma persist_writes_the_non_system_messages_witness :
  transcript_started Sample.talked /\
  exists data : list JsonObject,
    disk (world_of (save_conversation (Some "out.json") Sample.noon (fun _ => Sample.noon)
                      (Returned tt) Sample.talked Sample.nothing)) =
      [("out.json", data)] /\
    List.length data + 1 = 3.
Proof.
  assert (Hstarted : transcript_started Sample.talked).
  { split; [discriminate|].
    simpl. repeat split. repeat constructor; discriminate. }
  split; [exact Hstarted|].
  destruct (persist_writes_the_non_system_messages Sample.talked Sample.nothing
              (Some "out.json") Sample.noon (fun _ => Sample.noon))
    as [_ [data [Hdisk [_ [_ Hcount]]]]].
  exists data. split; [exact Hdisk | exact (proj2 (Hcount Hstarted))].
Defined.

Example saved_file_example :
  disk (world_of (save_conversation (Some "out.json") Sample.noon (fun _ => Sample.noon)
                    (Returned tt) Sample.talked Sample.nothing)) =
  [("out.json",
    [[("role", "user"); ("content", "Hello"); ("timestamp", "2025-01-15T12:00:00")];
     [("role", "assistant"); ("content", "Hi there!");
      ("timestamp", "2025-01-15T12:00:07.002500")]])].
Proof. reflexivity. Qed.

(** The command [save] in the loop when writing the file raises an exception:
    the round ends normally and the loop goes on. *)
Lemma loop_round_save_not_written {py : StrOps} (self : AdvancedChatbot) (w : World) (t : Turn)
    (typed_line : string) (e : BaseException) :
  typed t = Returned typed_line ->
  lower (strip typed_line) = "save" ->
  written t = Raised e ->
  isinstance_Exception e = true ->
  loop_round t self w =
  (Returned Continue, self,
   printed w ["You: "; line ("âŒ Error saving conversation: " ++ str e)]).
Proof.
  intros Htyped Hsave Hwritten He.
  unfold loop_round, loop_try, bind, extern, print_end. rewrite Htyped.
  destruct (strip typed_line =? EmptyString) eqn:Hempty.
  { apply String.eqb_eq in Hempty. rewrite Hempty, lower_empty in Hsave.
    discriminate Hsave. }
  rewrite Hsave. cbn [existsb String.eqb Ascii.eqb Bool.eqb orb].
  rewrite Hwritten, (save_conversation_not_written _ _ _ _ _ e He).
  unfold printed, ret. cbn. rewrite <- app_assoc. reflexivity.
Qed.

(** C7.  When writing the file fails with an exception, [persist] does not
    raise: it returns, having printed the error, and the session after it is
    the session before it (the transcript with it).  In the command loop the
    round ends normally and the loop goes on. *)
Theorem persist_failure_is_reported_and_harmless {py : StrOps}
    (self : AdvancedChatbot) (w : World) (filename : option string)
    (now : datetime) (now_at : nat -> datetime) (e : BaseException) :
  isinstance_Exception e = true ->
  let run := save_conversation filename now now_at (Raised e) self w in
  result_of run = Returned tt /\
  object_of run = self /\
  conversation_history (object_of run) = conversation_history self /\
  world_of run = printed w [line ("âŒ Error saving conversation: " ++ str e)] /\
  forall (t : Turn) (typed_line : string),
    typed t = Returned typed_line ->
    lower (strip typed_line) = "save" ->
    written t = Raised e ->
    loop_round t self w =
    (Returned Continue, self,
     printed w ["You: "; line ("âŒ Error saving conversation: " ++ str e)]).
Proof.
  intros He. cbv zeta.
  rewrite (save_conversation_not_written self w filename now now_at e He).
  repeat split.
  intros t typed_line Htyped Hsave Hwritten.
  exact (loop_round_save_not_written self w t typed_line e Htyped Hsave Hwritten He).
Qed.

Lemma persist_failure_is_reported_and_harmless_witness :
  isinstance_Exception Sample.disk_full = true /\
  save_conversation None Sample.noon (fun _ => Sample.noon) (Raised Sample.disk_full)
    Sample.talked Sample.nothing =
  (Returned tt, Sample.talked,
   mkWorld ["âŒ Error saving conversation: [Errno 28] No space left on device" ++ newline]
     []).
Proof.
  split; [reflexivity|].
  destruct (persist_failure_is_reported_and_harmless Sample.talked Sample.nothing None
              Sample.noon (fun _ => Sample.noon) Sample.disk_full eq_refl)
    as [Hres [Hobj [_ [Hworld _]]]].
  destruct (save_conversation None Sample.noon (fun _ => Sample.noon)
              (Raised Sample.disk_full) Sample.talked Sample.nothing) as [[r o] w'].
  unfold result_of, object_of, world_of in Hres, Hobj, Hworld. simpl in Hres, Hobj, Hworld.
  rewrite Hres, Hobj, Hworld. reflexivity.
Defined.

(** ** The transcript invariant *)

(** What an operation can do to the chatbot: the persona text and all fields
    but the transcript and the chat session stay; the transcript gains messages
    that are not system messages, or is replaced by a fresh system message, or,
    when the operation does not return, is left empty. *)
Lemma perform_object {py : StrOps} (op : Operation) (self : AdvancedChatbot) (w : World) :
  system_prompt (object_of (perform op self w)) = system_prompt self /\
  ((exists gained : list ChatMessage,
      conversation_history (object_of (perform op self w)) =
        (conversation_history self ++ gained)%list /\
      Forall (fun msg => role msg <> "system") gained) \/
   (exists now : datetime,
      conversation_history (object_of (perform op self w)) =
        [system_message_at now (system_prompt self)]) \/
   (conversation_history (object_of (perform op self w)) = [] /\
    result_of (perform op self w) <> Returned tt)).
Proof.
  destruct op as [user_text now_user now_ai reply| |start now|filename now now_at written];
    unfold perform.
  - (* send *)
    split.
    + destruct self as [k m h [c|] p], reply as [text|e];
        unfold get_ai_response, try_except_Exception, bind; cbn;
        try (destruct (isinstance_Exception e)); cbn;
        repeat match goal with
               | |- context [if ?b then _ else _] => destruct b
               end; reflexivity.
    + left.
      destruct self as [k m h [c|] p], reply as [text|e];
        unfold get_ai_response, try_except_Exception, bind; cbn;
        try (destruct (isinstance_Exception e)); cbn;
        repeat match goal with
               | |- context [if ?b then _ else _] => destruct b
               end; cbn;
        try (exists [user_message_at now_user user_text];
             split; [reflexivity | repeat constructor; discriminate]).
      exists [user_message_at now_user user_text; assistant_message_at now_ai text].
      split; [rewrite <- app_assoc; reflexivity | repeat constructor; discriminate].
  - (* summary *)
    unfold bind. rewrite get_conversation_summary_run. cbn.
    split; [reflexivity|]. left. exists []. split; [|constructor].
    rewrite app_nil_r. reflexivity.
  - (* clear *)
    destruct start as [[]|e].
    + rewrite clear_history_restarted. cbn.
      split; [reflexivity|]. right. left. exists now. reflexivity.
    + destruct (isinstance_Exception e) eqn:He.
      * rewrite (clear_history_not_restarted self w now e He). cbn.
        split; [reflexivity|]. right. right. split; [reflexivity | discriminate].
      * unfold clear_history, _start_chat_session, try_except_Exception, bind. cbn.
        rewrite He. cbn.
        split; [reflexivity|]. right. right. split; [reflexivity | discriminate].
  - (* persist *)
    assert (Hsame : object_of (save_conversation filename now now_at written self w) = self).
    { destruct written as [[]|e].
      - rewrite save_conversation_written. reflexivity.
      - destruct (isinstance_Exception e) eqn:He.
        + rewrite (save_conversation_not_written self w filename now now_at e He).
          reflexivity.
        + unfold save_conversation, try_except_Exception, bind. cbn.
          rewrite He. reflexivity. }
    rewrite Hsame.
    split; [reflexivity|]. left. exists []. split; [|constructor].
    rewrite app_nil_r. reflexivity.
Qed.

(** An operation that returns leaves a chatbot that holds a chat session. *)
Lemma perform_keeps_session {py : StrOps} (op : Operation) (self : AdvancedChatbot) (w : World) :
  has_session self = true ->
  result_of (perform op self w) = Returned tt ->
  has_session (object_of (perform op self w)) = true.
Proof.
  intros Hs.
  destruct op as [user_text now_user now_ai reply| |start now|filename now now_at written];
    unfold perform.
  - destruct self as [k m h [c|] p]; [|discriminate Hs].
    intros _.
    destruct reply as [text|e];
      unfold get_ai_response, try_except_Exception, bind; cbn;
      try (destruct (isinstance_Exception e)); cbn;
      repeat match goal with
             | |- context [if ?b then _ else _] => destruct b
             end; reflexivity.
  - intros _. unfold bind. rewrite get_conversation_summary_run. exact Hs.
  - destruct start as [[]|e].
    + intros _. rewrite clear_history_restarted. reflexivity.
    + destruct (isinstance_Exception e) eqn:He.
      * rewrite (clear_history_not_restarted self w now e He). discriminate.
      * unfold clear_history, _start_chat_session, try_except_Exception, bind. cbn.
        rewrite He. discriminate.
  - intros _.
    destruct written as [[]|e].
    + rewrite save_conversation_written. exact Hs.
    + destruct (isinstance_Exception e) eqn:He.
      * rewrite (save_conversation_not_written self w filename now now_at e He).
        exact Hs.
      * unfold save_conversation, try_except_Exception, bind. cbn.
        rewrite He. exact Hs.
Qed.

(** Every session a process can hold has a chat session, so the remote call
    of a send is made. *)
Lemma reachable_has_session {py : StrOps} (self : AdvancedChatbot) :
  reachable self -> has_session self = true.
Proof.
  induction 1 as [key model getenv connect start now w chatbot Hinit
                 | self op w _ IH Hres].
  - exact (proj2 (init_returns _ _ _ _ _ _ _ _ Hinit)).
  - exact (perform_keeps_session op self w IH Hres).
Qed.

Lemma transcript_started_gains (first : ChatMessage) (later gained : list ChatMessage)
    (persona : string) :
  role first = "system" /\ content first = persona /\
  Forall (fun msg => role msg <> "system") later ->
  Forall (fun msg => role msg <> "system") gained ->
  role first = "system" /\ content first = persona /\
  Forall (fun msg => role msg <> "system") (later ++ gained)%list.
Proof.
  intros [Hrole [Hcontent Hlater]] Hgained.
  repeat split; try assumption.
  apply Forall_app. split; assumption.
Qed.

(** An operation on a transcript that starts with its system message leaves
    a transcript that satisfies the invariant, and one that starts with its
    system message when the operation returns. *)
Lemma perform_keeps_invariant {py : StrOps} (op : Operation) (self : AdvancedChatbot) (w : World) :
  transcript_started self ->
  transcript_ok (object_of (perform op self w)) /\
  (result_of (perform op self w) = Returned tt ->
   transcript_started (object_of (perform op self w))).
Proof.
  intros [Hne Hok].
  destruct (perform_object op self w) as [Hprompt [Hgain | [Hnew | Hempty]]];
    unfold transcript_started, transcript_ok in *.
  - destruct Hgain as [gained [Hhist Hgained]].
    rewrite Hhist, Hprompt.
    destruct (conversation_history self) as [|first later]; [contradiction|].
    simpl.
    pose proof (transcript_started_gains first later gained _ Hok Hgained) as H.
    split; [exact H|]. intros _. split; [discriminate | exact H].
  - destruct Hnew as [now Hhist].
    rewrite Hhist, Hprompt. simpl.
    split; [repeat split; constructor|].
    intros _. split; [discriminate | repeat split; constructor].
  - destruct Hempty as [Hhist Hres].
    rewrite Hhist. split; [exact I|].
    intros H. contradiction.
Qed.

(** C9.  In every session a process can hold, the transcript starts with the
    system message that carries the persona text and has no system message
    anywhere else; every operation (send, summary, clear, persist), whatever
    the outside world answers and whether it returns or not, leaves a transcript
    whose first message, if present, is that system message and that has no
    system message elsewhere, and leaves the persona text as it was. *)
Theorem transcript_invariant {py : StrOps} (self : AdvancedChatbot) :
  reachable self ->
  transcript_started self /\
  forall (op : Operation) (w : World),
    transcript_ok (object_of (perform op self w)) /\
    system_prompt (object_of (perform op self w)) = system_prompt self.
Proof.
  intros Hreach.
  assert (Hstarted : transcript_started self).
  { induction Hreach as [key model getenv connect start now w chatbot Hinit
                        | self op w _ IH Hres].
    - destruct (init_returns _ _ _ _ _ _ _ _ Hinit) as [Hhist _].
      unfold transcript_started, transcript_ok. rewrite Hhist.
      split; [discriminate|]. simpl. repeat split. constructor.
    - exact (proj2 (perform_keeps_invariant op self w IH) Hres). }
  split; [exact Hstarted|].
  intros op w. split.
  - exact (proj1 (perform_keeps_invariant op self w Hstarted)).
  - exact (proj1 (perform_object op self w)).
Qed.

Lemma transcript_invariant_witness :
  reachable Sample.fresh /\
  transcript_started Sample.fresh /\
  transcript_ok
    (object_of (perform (Send "Hello" Sample.noon Sample.later (Raised Sample.boom))
                  Sample.fresh Sample.nothing)).
Proof.
  assert (Hreach : reachable Sample.fresh).
  { apply (reachable_init (Some "key") "gemini-1.5-flash" None (Returned tt) (Returned tt)
             Sample.noon Sample.nothing).
    reflexivity. }
  split; [exact Hreach|].
  destruct (transcript_invariant Sample.fresh Hreach) as [Hstarted Hops].
  split; [exact Hstarted|].
  exact (proj1 (Hops (Send "Hello" Sample.noon Sample.later (Raised Sample.boom))
                  Sample.nothing)).
Defined.

(** ** Starting without a credential *)

Lemma print_welcome_message_run (w : World) :
  print_welcome_message tt w = (Returned tt, tt, printed w welcome_texts).
Proof.
  unfold print_welcome_message, bind, print, print_end, printed. cbn.
  repeat rewrite <- app_assoc. reflexivity.
Qed.

(** [__init__] without a credential. *)
Lemma init_without_key (key : option string) (model : string) (getenv : option string)
    (connect start : Result unit) (now : datetime) (w : World) :
  truthy key = false ->
  truthy getenv = false ->
  __init__ key model getenv connect start now tt w =
  (Raised exit_1, tt, printed w missing_key_texts).
Proof.
  intros Hkey Henv.
  unfold __init__, _initialize_client, bind, or_else. rewrite Hkey. cbn.
  rewrite Henv. cbn. unfold printed. cbn.
  repeat rewrite <- app_assoc. reflexivity.
Qed.

Example welcome_texts_example :
  hd_error welcome_texts =
    Some (line "ðŸ¤– ============================================================") /\
  List.length welcome_texts = 12.
Proof. split; reflexivity. Qed.

(** C4.  When neither the argument nor the environment variable gives a
    non-empty API key, making the chatbot exits with status 1 whatever the
    client and the clock would have answered: no chatbot is returned, the
    client is not asked, and what is printed names [GEMINI_API_KEY].  The
    program then ends with that exit after the welcome and these texts,
    whatever was going to be typed, and the prompt ["You: "] is never
    written. *)
Theorem missing_credential_is_fatal {py : StrOps}
    (key : option string) (model : string) (getenv : option string)
    (connect start : Result unit) (now : datetime) (w : World) :
  truthy key = false ->
  truthy getenv = false ->
  __init__ key model getenv connect start now tt w =
    (Raised exit_1, tt, printed w missing_key_texts) /\
  (forall script : list Turn,
     main (mkStartup getenv connect start now) script tt w =
       (Raised exit_1, tt, printed w (welcome_texts ++ missing_key_texts)%list)) /\
  ~ In "You: " (welcome_texts ++ missing_key_texts)%list /\
  (exists text : string,
     In text missing_key_texts /\ contains "GEMINI_API_KEY" text = true).
Proof.
  intros Hkey Henv.
  split; [exact (init_without_key key model getenv connect start now w Hkey Henv)|].
  split.
  - intros script.
    unfold main, bind. rewrite print_welcome_message_run. cbn [GEMINI_API_KEY connected
      started now_started].
    rewrite (init_without_key None "gemini-1.5-flash" getenv connect start now
               (printed w welcome_texts) eq_refl Henv).
    cbn [is_KeyboardInterrupt exc_class exit_1].
    unfold printed. cbn [stdout disk]. rewrite <- app_assoc. reflexivity.
  - split.
    + intros Hin. cbv in Hin.
      repeat (destruct Hin as [Hin|Hin]; [discriminate Hin|]).
      exact Hin.
    + exists (line "1. Set the GEMINI_API_KEY environment variable").
      split; [right; right; left; reflexivity | reflexivity].
Qed.

Lemma missing_credential_is_fatal_witness :
  truthy None = false /\
  truthy (Some EmptyString) = false /\
  main Sample.no_key [] tt Sample.nothing =
    (Raised exit_1, tt, mkWorld (welcome_texts ++ missing_key_texts)%list []).
Proof.
  split; [reflexivity|]. split; [reflexivity|].
  exact (proj1 (proj2 (missing_credential_is_fatal None "gemini-1.5-flash" (Some EmptyString)
                         (Returned tt) (Returned tt) Sample.noon Sample.nothing
                         eq_refl eq_refl)) []).
Defined.

(** With a credential the loop is entered and the prompt is written. *)
Example prompt_is_shown_with_a_key :
  let run := main (mkStartup (Some "key") (Returned tt) (Returned tt) Sample.noon) []
               tt Sample.nothing in
  result_of run = Returned tt /\ In "You: " (stdout (world_of run)).
Proof.
  cbv zeta. split; [reflexivity|].
  cbv. do 16 right. left. reflexivity.
Qed.

(** * Further properties of the code *)

(** ** Making the session: the other outcomes *)

(** X1.  With a credential, when configuring the client or listing the
    models raises an exception, [__init__] prints the error and a hint and
    exits with status 1; the chat session is not asked for. *)
Theorem init_exits_when_the_client_cannot_connect
    (key : option string) (model : string) (getenv : option string)
    (start : Result unit) (now : datetime) (w : World) (e : BaseException) :
  truthy (or_else key getenv) = true ->
  isinstance_Exception e = true ->
  __init__ key model getenv (Raised e) start now tt w =
  (Raised exit_1, tt,
   printed w [line ("âŒ Error connecting to Google AI API: " ++ str e); line "Please check your API key and internet connection."]).
Proof.
  intros Hkey He.
  unfold __init__, _initialize_client, try_except_Exception, bind. cbn.
  rewrite Hkey. cbn. rewrite He. cbn.
  unfold printed. cbn. rewrite <- app_assoc. reflexivity.
Qed.

Lemma init_exits_when_the_client_cannot_connect_witness :
  truthy (or_else None (Some "key")) = true /\
  isinstance_Exception Sample.api_down = true /\
  result_of (__init__ None "gemini-1.5-flash" (Some "key") (Raised Sample.api_down)
               (Returned tt) Sample.noon tt Sample.nothing) = Raised exit_1.
Proof.
  split; [reflexivity|]. split; [reflexivity|].
  rewrite (init_exits_when_the_client_cannot_connect None "gemini-1.5-flash" (Some "key")
             (Returned tt) Sample.noon Sample.nothing Sample.api_down eq_refl eq_refl).
  reflexivity.
Defined.

(** X2.  With a credential and a client that connects, when making the model
    or starting the chat raises an exception, [__init__] prints that it is
    connected, then the error, and exits with status 1. *)
Theorem init_exits_when_the_chat_cannot_start
    (key : option string) (model : string) (getenv : option string)
    (now : datetime) (w : World) (e : BaseException) :
  truthy (or_else key getenv) = true ->
  isinstance_Exception e = true ->
  __init__ key model getenv (Returned tt) (Raised e) now tt w =
  (Raised exit_1, tt,
   printed w [line "âœ… Successfully connected to Google AI API"; line ("âŒ Error starting chat session: " ++ str e)]).
Proof.
  intros Hkey He.
  unfold __init__, _initialize_client, _start_chat_session, try_except_Exception, bind.
  cbn. rewrite Hkey. cbn. rewrite He. cbn.
  unfold printed. cbn. rewrite <- app_assoc. reflexivity.
Qed.

Lemma init_exits_when_the_chat_cannot_start_witness :
  truthy (or_else (Some "key") None) = true /\
  isinstance_Exception Sample.boom = true /\
  result_of (__init__ (Some "key") "gemini-1.5-flash" None (Returned tt)
               (Raised Sample.boom) Sample.noon tt Sample.nothing) = Raised exit_1.
Proof.
  split; [reflexivity|]. split; [reflexivity|].
  rewrite (init_exits_when_the_chat_cannot_start (Some "key") "gemini-1.5-flash" None
             Sample.noon Sample.nothing Sample.boom eq_refl eq_refl).
  reflexivity.
Defined.

(** How [__init__] ends. *)
Lemma init_outcomes
    (key : option string) (model : string) (getenv : option string)
    (connect start : Result unit) (now : datetime) (w : World) :
  match result_of (__init__ key model getenv connect start now tt w) with
  | Returned _ =>
      truthy (or_else key getenv) = true /\ connect = Returned tt /\ start = Returned tt
  | Raised e =>
      isinstance_Exception e = false /\
      (e = exit_1 \/ connect = Raised e \/ start = Raised e)
  end.
Proof.
  unfold __init__, _initialize_client, _start_chat_session, try_except_Exception, bind.
  cbn.
  destruct (truthy (or_else key getenv)); cbn.
  2: { split; [reflexivity | left; reflexivity]. }
  destruct connect as [[]|e]; cbn.
  - destruct start as [[]|e']; cbn.
    + repeat split.
    + destruct (isinstance_Exception e') eqn:He'; cbn.
      * split; [reflexivity | left; reflexivity].
      * split; [exact He' | right; right; reflexivity].
  - destruct (isinstance_Exception e) eqn:He; cbn.
    + split; [reflexivity | left; reflexivity].
    + split; [exact He | right; left; reflexivity].
Qed.

(** X3.  [__init__] returns a chatbot only when there is a credential, the
    client connects and the chat starts.  It never raises an [Exception]: what
    it raises is the exit with status 1, or what the client raised when that
    is not an [Exception] (an interrupt). *)
Theorem init_returns_or_exits
    (key : option string) (model : string) (getenv : option string)
    (connect start : Result unit) (now : datetime) (w : World) :
  match result_of (__init__ key model getenv connect start now tt w) with
  | Returned _ =>
      truthy (or_else key getenv) = true /\ connect = Returned tt /\ start = Returned tt
  | Raised e =>
      isinstance_Exception e = false /\
      (e = exit_1 \/ connect = Raised e \/ start = Raised e)
  end.
Proof.
  exact (init_outcomes key model getenv connect start now w).
Qed.

(** X4.  There is one persona text such that, with a credential, a client
    that connects and a chat that starts, [__init__] prints that it is
    connected and returns the chatbot whose key is the argument when that is
    not empty and the environment variable otherwise, whose transcript is the
    system message with the persona, and whose chat session was asked for the
    given model with the persona as system instruction. *)
Theorem init_success_state :
  exists persona : string,
    forall (key : option string) (model : string) (getenv : option string)
           (now : datetime) (w : World),
      truthy (or_else key getenv) = true ->
      __init__ key model getenv (Returned tt) (Returned tt) now tt w =
      (Returned
         (mkAdvancedChatbot (or_else key getenv) model
            [system_message_at now persona]
            (Some (mkChatSession model persona)) persona),
       tt, printed w [line "âœ… Successfully connected to Google AI API"]).
Proof.
  exists (system_prompt Sample.fresh).
  intros key model getenv now w Hkey.
  unfold __init__, _initialize_client, _start_chat_session, try_except_Exception, bind.
  cbn. rewrite Hkey. reflexivity.
Qed.

Lemma init_success_state_witness :
  exists persona : string,
    truthy (or_else (Some "mine") (Some "theirs")) = true /\
    result_of (__init__ (Some "mine") "gemini-1.5-flash" (Some "theirs") (Returned tt)
                 (Returned tt) Sample.noon tt Sample.nothing) =
    Returned
      (mkAdvancedChatbot (Some "mine") "gemini-1.5-flash"
         [system_message_at Sample.noon persona]
         (Some (mkChatSession "gemini-1.5-flash" persona)) persona).
Proof.
  destruct init_success_state as [persona Hinit].
  exists persona. split; [reflexivity|].
  rewrite (Hinit (Some "mine") "gemini-1.5-flash" (Some "theirs") Sample.noon
             Sample.nothing eq_refl).
  reflexivity.
Defined.

(** ** Turns: what else a send does and does not do *)

(** A send that is answered, run to its end. *)
Lemma send_turn_run {py : StrOps} (self : AdvancedChatbot) (w : World) (user_text : string)
    (now_user now_ai : datetime) (reply : Result string) :
  has_session self = true ->
  answered reply = true ->
  get_ai_response user_text now_user now_ai reply self w =
  (Returned (answer_of reply),
   with_history self
     (conversation_history self ++ gained_by user_text now_user now_ai reply)%list,
   printed w typing_texts).
Proof.
  intros Hs Hreply.
  destruct self as [k m h [c|] p]; [|discriminate Hs].
  destruct reply as [text|e]; unfold get_ai_response, try_except_Exception, bind; cbn.
  - unfold with_history, printed. cbn. repeat rewrite <- app_assoc. reflexivity.
  - simpl in Hreply. rewrite Hreply. cbn.
    unfold classify, mentions_quota_or_limit, with_history, printed.
    destruct (contains "quota" (lower (str e)) || contains "limit" (lower (str e)));
      [|destruct (contains "api" (lower (str e)))];
      cbn; repeat rewrite <- app_assoc; reflexivity.
Qed.

(** A send whose remote call raises what is not an [Exception], run to its
    end. *)
Lemma send_turn_interrupted {py : StrOps} (self : AdvancedChatbot) (w : World) (user_text : string)
    (now_user now_ai : datetime) (e : BaseException) :
  has_session self = true ->
  isinstance_Exception e = false ->
  get_ai_response user_text now_user now_ai (Raised e) self w =
  (Raised e,
   with_history self
     (conversation_history self ++ [user_message_at now_user user_text])%list,
   printed w typing_texts).
Proof.
  intros Hs He.
  destruct self as [k m h [c|] p]; [|discriminate Hs].
  unfold get_ai_response, try_except_Exception, bind. cbn.
  rewrite He. unfold with_history, printed. cbn.
  repeat rewrite <- app_assoc. reflexivity.
Qed.

(** X5.  A send whose remote call returns or raises an exception returns
    its answer, changes nothing of the chatbot but the transcript, writes the
    typing indicator and nothing else to the output, and writes no file. *)
Theorem send_changes_only_the_transcript {py : StrOps}
    (self : AdvancedChatbot) (w : World) (user_text : string)
    (now_user now_ai : datetime) (reply : Result string) :
  has_session self = true ->
  answered reply = true ->
  get_ai_response user_text now_user now_ai reply self w =
  (Returned (answer_of reply),
   with_history self
     (conversation_history self ++ gained_by user_text now_user now_ai reply)%list,
   printed w typing_texts).
Proof.
  exact (send_turn_run self w user_text now_user now_ai reply).
Qed.

Lemma send_changes_only_the_transcript_witness :
  has_session Sample.fresh = true /\
  answered (Raised Sample.quota_exceeded) = true /\
  world_of (get_ai_response "Hello" Sample.noon Sample.later
              (Raised Sample.quota_exceeded) Sample.fresh Sample.nothing) =
  mkWorld typing_texts [].
Proof.
  split; [reflexivity|]. split; [reflexivity|].
  rewrite (send_changes_only_the_transcript Sample.fresh Sample.nothing "Hello"
             Sample.noon Sample.later (Raised Sample.quota_exceeded) eq_refl eq_refl).
  reflexivity.
Defined.

(** X6.  When the remote call raises what is not an [Exception] (an
    interrupt), the send raises it too; the user message, appended before the
    call, stays in the transcript and no assistant message is added. *)
Theorem send_interrupted_keeps_the_user_message {py : StrOps}
    (self : AdvancedChatbot) (w : World) (user_text : string)
    (now_user now_ai : datetime) (e : BaseException) :
  has_session self = true ->
  isinstance_Exception e = false ->
  get_ai_response user_text now_user now_ai (Raised e) self w =
  (Raised e,
   with_history self
     (conversation_history self ++ [user_message_at now_user user_text])%list,
   printed w typing_texts).
Proof.
  exact (send_turn_interrupted self w user_text now_user now_ai e).
Qed.

Lemma send_interrupted_keeps_the_user_message_witness :
  has_session Sample.fresh = true /\
  isinstance_Exception (mkExc KeyboardInterrupt EmptyString) = false /\
  List.length
    (conversation_history
       (object_of (get_ai_response "Hello" Sample.noon Sample.later
                     (Raised (mkExc KeyboardInterrupt EmptyString))
                     Sample.fresh Sample.nothing))) = 2.
Proof.
  split; [reflexivity|]. split; [reflexivity|].
  rewrite (send_interrupted_keeps_the_user_message Sample.fresh Sample.nothing "Hello"
             Sample.noon Sample.later (mkExc KeyboardInterrupt EmptyString)
             eq_refl eq_refl).
  reflexivity.
Defined.

(** ** What no operation does *)

(** What an operation raises is not an [Exception]. *)
Lemma perform_raises_no_Exception {py : StrOps}
    (op : Operation) (self : AdvancedChatbot) (w : World) (e : BaseException) :
  result_of (perform op self w) = Raised e ->
  isinstance_Exception e = false.
Proof.
  destruct op as [user_text now_user now_ai reply| |start now|filename now now_at written];
    unfold perform.
  - destruct self as [k m h [c|] p], reply as [text|e'];
      unfold get_ai_response, try_except_Exception, bind; cbn;
      try (destruct (isinstance_Exception e') eqn:He'); cbn;
      repeat match goal with
             | |- context [if ?b then _ else _] => destruct b
             end; cbn; try discriminate.
    intros H. injection H as <-. exact He'.
  - unfold bind. rewrite get_conversation_summary_run. discriminate.
  - destruct start as [[]|e'].
    + rewrite clear_history_restarted. discriminate.
    + destruct (isinstance_Exception e') eqn:He'.
      * rewrite (clear_history_not_restarted self w now e' He').
        intros H. injection H as <-. reflexivity.
      * unfold clear_history, _start_chat_session, try_except_Exception, bind. cbn.
        rewrite He'. cbn. intros H. injection H as <-. exact He'.
  - destruct written as [[]|e'].
    + rewrite save_conversation_written. discriminate.
    + destruct (isinstance_Exception e') eqn:He'.
      * rewrite (save_conversation_not_written self w filename now now_at e' He').
        discriminate.
      * unfold save_conversation, try_except_Exception, bind. cbn.
        rewrite He'. cbn. intros H. injection H as <-. exact He'.
Qed.

(** X7.  No operation lets an [Exception] escape: send, summary, clear and
    persist return, or raise what is not an [Exception] (the exit of a failed
    clear, or an interrupt). *)
Theorem operations_raise_no_Exception {py : StrOps}
    (op : Operation) (self : AdvancedChatbot) (w : World) (e : BaseException) :
  result_of (perform op self w) = Raised e ->
  isinstance_Exception e = false.
Proof.
  exact (perform_raises_no_Exception op self w e).
Qed.

Lemma operations_raise_no_Exception_witness :
  result_of (perform (Clear (Raised Sample.boom) Sample.noon) Sample.talked Sample.nothing) =
    Raised exit_1 /\
  isinstance_Exception exit_1 = false.
Proof.
  assert (H : result_of (perform (Clear (Raised Sample.boom) Sample.noon) Sample.talked
                           Sample.nothing) = Raised exit_1) by reflexivity.
  split; [exact H|].
  exact (operations_raise_no_Exception _ _ _ _ H).
Defined.

(** [save_conversation] leaves the chatbot as it was, however writing ends. *)
Lemma save_conversation_object (self : AdvancedChatbot) (w : World)
    (filename : option string) (now : datetime) (now_at : nat -> datetime)
    (written : Result unit) :
  object_of (save_conversation filename now now_at written self w) = self.
Proof.
  destruct written as [[]|e].
  - rewrite save_conversation_written. reflexivity.
  - destruct (isinstance_Exception e) eqn:He.
    + rewrite (save_conversation_not_written self w filename now now_at e He).
      reflexivity.
    + unfold save_conversation, try_except_Exception, bind. cbn.
      rewrite He. reflexivity.
Qed.

(** X8.  Saving never changes the chatbot, however writing the file ends:
    when the file is written or writing raises an exception, [save] returns
    with the chatbot as it was; when writing raises what is not an
    [Exception] (an interrupt), [save] raises it, with the chatbot as it
    was. *)
Theorem saving_never_changes_the_session
    (self : AdvancedChatbot) (w : World) (filename : option string)
    (now : datetime) (now_at : nat -> datetime) (written : Result unit) :
  object_of (save_conversation filename now now_at written self w) = self /\
  result_of (save_conversation filename now now_at written self w) =
    match written with
    | Returned _ => Returned tt
    | Raised e => if isinstance_Exception e then Returned tt else Raised e
    end.
Proof.
  split; [apply save_conversation_object|].
  destruct written as [[]|e].
  - rewrite save_conversation_written. reflexivity.
  - destruct (isinstance_Exception e) eqn:He.
    + rewrite (save_conversation_not_written self w filename now now_at e He).
      reflexivity.
    + unfold save_conversation, try_except_Exception, bind. cbn.
      rewrite He. reflexivity.
Qed.

(** ** The sessions a process can hold *)

(** What each operation does to the transcript and the chat session; the
    key, the model and the persona stay. *)
Lemma perform_cases {py : StrOps} (op : Operation) (self : AdvancedChatbot) (w : World) :
  model (object_of (perform op self w)) = model self /\
  system_prompt (object_of (perform op self w)) = system_prompt self /\
  api_key (object_of (perform op self w)) = api_key self /\
  ((chat_session (object_of (perform op self w)) = chat_session self /\
    (conversation_history (object_of (perform op self w)) = conversation_history self \/
     (exists now text,
        conversation_history (object_of (perform op self w)) =
          (conversation_history self ++ [user_message_at now text])%list) \/
     (exists now text now' text',
        conversation_history (object_of (perform op self w)) =
          (conversation_history self ++
           [user_message_at now text; assistant_message_at now' text'])%list))) \/
   (exists now : datetime,
      conversation_history (object_of (perform op self w)) =
        [system_message_at now (system_prompt self)] /\
      chat_session (object_of (perform op self w)) =
        Some (mkChatSession (model self) (system_prompt self))) \/
   (conversation_history (object_of (perform op self w)) = [] /\
    result_of (perform op self w) <> Returned tt)).
Proof.
  destruct op as [user_text now_user now_ai reply| |start now|filename now now_at written];
    unfold perform.
  - (* send *)
    assert (Hobj :
      object_of ((get_ai_response user_text now_user now_ai reply ;; ret tt) self w) =
        with_history self
          (conversation_history self ++ [user_message_at now_user user_text])%list \/
      exists text,
        object_of ((get_ai_response user_text now_user now_ai reply ;; ret tt) self w) =
          with_history self
            (conversation_history self ++
             [user_message_at now_user user_text; assistant_message_at now_ai text])%list).
    { destruct self as [k m h [c|] p], reply as [text|e];
        unfold get_ai_response, try_except_Exception, bind; cbn;
        try (destruct (isinstance_Exception e)); cbn;
        repeat match goal with
               | |- context [if ?b then _ else _] => destruct b
               end; cbn;
        try (left; reflexivity).
      right. exists text. unfold with_history. cbn.
      rewrite <- app_assoc. reflexivity. }
    destruct Hobj as [Hobj | [text Hobj]]; rewrite Hobj; cbn;
      (split; [reflexivity|]); (split; [reflexivity|]); (split; [reflexivity|]);
      left; (split; [reflexivity|]); right.
    + left. exists now_user, user_text. reflexivity.
    + right. exists now_user, user_text, now_ai, text. reflexivity.
  - (* summary *)
    unfold bind. rewrite get_conversation_summary_run. cbn.
    repeat (split; [reflexivity|]). left. split; [reflexivity | left; reflexivity].
  - (* clear *)
    destruct start as [[]|e].
    + rewrite clear_history_restarted. cbn.
      repeat (split; [reflexivity|]). right. left. exists now. split; reflexivity.
    + destruct (isinstance_Exception e) eqn:He.
      * rewrite (clear_history_not_restarted self w now e He). cbn.
        repeat (split; [reflexivity|]). right. right. split; [reflexivity | discriminate].
      * unfold clear_history, _start_chat_session, try_except_Exception, bind. cbn.
        rewrite He. cbn.
        repeat (split; [reflexivity|]). right. right. split; [reflexivity | discriminate].
  - (* persist *)
    rewrite (save_conversation_object self w filename now now_at written).
    repeat (split; [reflexivity|]). left. split; [reflexivity | left; reflexivity].
Qed.

Lemma init_returns_session (key : option string) (name : string) (getenv : option string)
    (connect start : Result unit) (now : datetime) (w : World)
    (chatbot : AdvancedChatbot) :
  result_of (__init__ key name getenv connect start now tt w) = Returned chatbot ->
  chat_session chatbot = Some (mkChatSession (model chatbot) (system_prompt chatbot)).
Proof.
  unfold __init__, _initialize_client, _start_chat_session, try_except_Exception, bind.
  cbn.
  destruct (truthy (or_else key getenv)); cbn; [|discriminate].
  destruct connect as [[]|e]; cbn.
  - destruct start as [[]|e']; cbn.
    + intros H. injection H as <-. reflexivity.
    + destruct (isinstance_Exception e'); cbn; discriminate.
  - destruct (isinstance_Exception e); cbn; discriminate.
Qed.

Lemma reachable_started {py : StrOps} (self : AdvancedChatbot) :
  reachable self -> transcript_started self.
Proof.
  induction 1 as [key model getenv connect start now w chatbot Hinit
                 | self op w _ IH Hres].
  - destruct (init_returns _ _ _ _ _ _ _ _ Hinit) as [Hhist _].
    unfold transcript_started, transcript_ok. rewrite Hhist.
    split; [discriminate|]. simpl. repeat split. constructor.
  - exact (proj2 (perform_keeps_invariant op self w IH) Hres).
Qed.

Lemma all_stamped_app (h1 h2 : list ChatMessage) :
  all_stamped h1 -> all_stamped h2 -> all_stamped (h1 ++ h2)%list.
Proof. intros H1 H2. apply Forall_app. split; assumption. Qed.

(** The conversation of every session a process can hold is the system
    message followed by turns, all with timestamps. *)
Lemma reachable_conversation_ok {py : StrOps} (self : AdvancedChatbot) :
  reachable self -> conversation_ok self.
Proof.
  induction 1 as [key model getenv connect start now w chatbot Hinit
                 | self op w _ IH Hres].
  - destruct (init_returns _ _ _ _ _ _ _ _ Hinit) as [Hhist _].
    exists (system_message_at now (system_prompt chatbot)), [].
    split; [exact Hhist|]. split; [reflexivity|]. split; [constructor|].
    repeat constructor. discriminate.
  - destruct IH as [first [body [Hhist [Hfirst [Hturns Hstamped]]]]].
    destruct (perform_cases op self w)
      as [_ [_ [_ [[_ [Hsame | [Hone | Htwo]]] | [[now [Hnew _]] | [_ Hnot]]]]]].
    + exists first, body. rewrite Hsame. repeat split; assumption.
    + destruct Hone as [now [text Hone]].
      exists first, (body ++ [user_message_at now text])%list.
      rewrite Hone, Hhist. split; [reflexivity|]. split; [exact Hfirst|].
      split; [apply turns_unanswered; [exact Hturns | reflexivity]|].
      apply (all_stamped_app (first :: body)); [exact Hstamped|].
      repeat constructor. discriminate.
    + destruct Htwo as [now [text [now' [text' Htwo]]]].
      exists first,
        (body ++ [user_message_at now text; assistant_message_at now' text'])%list.
      rewrite Htwo, Hhist. split; [reflexivity|]. split; [exact Hfirst|].
      split; [apply turns_answered; [exact Hturns | reflexivity | reflexivity]|].
      apply (all_stamped_app (first :: body)); [exact Hstamped|].
      repeat constructor; discriminate.
    + exists (system_message_at now (system_prompt self)), [].
      split; [exact Hnew|]. split; [reflexivity|]. split; [constructor|].
      repeat constructor. discriminate.
    + contradiction.
Qed.

Lemma turns_counts (body : list ChatMessage) :
  turns body ->
  count_role "system" body = 0 /\
  count_role "assistant" body <= count_role "user" body /\
  List.length body = count_role "user" body + count_role "assistant" body.
Proof.
  induction 1 as [|earlier question _ IH Hq|earlier question answer _ IH Hq Ha];
    [repeat split; reflexivity| |];
    destruct IH as [Hsys [Hle Hlen]];
    rewrite !count_role_app, length_app; simpl;
    rewrite ?Hq, ?Ha; simpl; repeat split; lia.
Qed.

(** X9.  In every session a process can hold, the summary's two numbers
    account for the whole conversation: there is exactly one system message,
    the transcript has one message more than the user and assistant messages
    together, and there are at most as many assistant messages as user
    messages (each answer follows a question; a failed turn leaves a question
    unanswered). *)
Theorem reachable_counts {py : StrOps} (self : AdvancedChatbot) :
  reachable self ->
  count_role "system" (conversation_history self) = 1 /\
  count_role "assistant" (conversation_history self) <=
    count_role "user" (conversation_history self) /\
  List.length (conversation_history self) =
    1 + count_role "user" (conversation_history self) +
    count_role "assistant" (conversation_history self).
Proof.
  intros Hreach.
  destruct (reachable_conversation_ok self Hreach)
    as [first [body [Hhist [Hfirst [Hturns _]]]]].
  destruct (turns_counts body Hturns) as [Hsys [Hle Hlen]].
  rewrite Hhist. simpl. rewrite Hfirst. simpl. lia.
Qed.

Lemma reachable_counts_witness :
  reachable Sample.fresh /\
  count_role "system" (conversation_history Sample.fresh) = 1.
Proof.
  assert (Hreach : reachable Sample.fresh).
  { apply (reachable_init (Some "key") "gemini-1.5-flash" None (Returned tt) (Returned tt)
             Sample.noon Sample.nothing).
    reflexivity. }
  split; [exact Hreach|].
  exact (proj1 (reachable_counts Sample.fresh Hreach)).
Defined.

(** X10.  In every session a process can hold, the chat session in use was
    asked for the model of the chatbot, with the persona as system
    instruction, and that instruction is the content of the first message of
    the transcript. *)
Theorem reachable_session_matches_the_transcript {py : StrOps} (self : AdvancedChatbot) :
  reachable self ->
  exists (session : ChatSession) (first : ChatMessage) (later : list ChatMessage),
    chat_session self = Some session /\
    conversation_history self = first :: later /\
    model_name session = model self /\
    system_instruction session = system_prompt self /\
    content first = system_instruction session.
Proof.
  intros Hreach.
  assert (Hsession : chat_session self =
                     Some (mkChatSession (model self) (system_prompt self))).
  { induction Hreach as [key name getenv connect start now w chatbot Hinit
                        | self op w _ IH Hres].
    - exact (init_returns_session _ _ _ _ _ _ _ _ Hinit).
    - destruct (perform_cases op self w)
        as [Hmodel [Hprompt [_ [[Hsame _] | [[now [_ Hnew]] | [_ Hnot]]]]]].
      + rewrite Hsame, Hmodel, Hprompt. exact IH.
      + rewrite Hnew, Hmodel, Hprompt. reflexivity.
      + contradiction. }
  destruct (reachable_started self Hreach) as [Hne Hok].
  unfold transcript_ok in Hok.
  destruct (conversation_history self) as [|first later] eqn:Hhist; [contradiction|].
  destruct Hok as [_ [Hcontent _]].
  exists (mkChatSession (model self) (system_prompt self)), first, later.
  repeat split; [exact Hsession | exact Hcontent].
Qed.

Lemma reachable_session_matches_the_transcript_witness :
  reachable Sample.fresh /\
  exists (session : ChatSession) (first : ChatMessage) (later : list ChatMessage),
    chat_session Sample.fresh = Some session /\
    conversation_history Sample.fresh = first :: later /\
    content first = system_instruction session.
Proof.
  assert (Hreach : reachable Sample.fresh).
  { apply (reachable_init (Some "key") "gemini-1.5-flash" None (Returned tt) (Returned tt)
             Sample.noon Sample.nothing).
    reflexivity. }
  split; [exact Hreach|].
  destruct (reachable_session_matches_the_transcript Sample.fresh Hreach)
    as [session [first [later [Hs [Hh [_ [_ Hc]]]]]]].
  exists session, first, later. repeat split; assumption.
Defined.

(** The saved objects of messages that all have a timestamp do not depend
    on the clock of the saving loop. *)
Lemma conversation_data_stamped (history : list ChatMessage)
    (now_at now_at' : nat -> datetime) :
  all_stamped history ->
  forall i j : nat,
    conversation_data_from i now_at history = conversation_data_from j now_at' history.
Proof.
  induction 1 as [|msg rest Hmsg _ IH]; intros i j; simpl.
  - reflexivity.
  - rewrite (IH (S i) (S j)).
    destruct (timestamp msg); [reflexivity | contradiction].
Qed.

(** X11.  In every session a process can hold, every message has a
    timestamp (the constructor sets it), so the file written by a save holds,
    for every message, the text of the time the message was made: the same
    messages saved at another time give the same file content. *)
Theorem reachable_save_does_not_depend_on_the_clock {py : StrOps}
    (self : AdvancedChatbot) (w w' : World) (filename : string)
    (now now' : datetime) (now_at now_at' : nat -> datetime) :
  reachable self ->
  all_stamped (conversation_history self) /\
  exists data : list JsonObject,
    disk (world_of (save_conversation (Some filename) now now_at (Returned tt) self w)) =
      (filename, data) :: disk w /\
    disk (world_of (save_conversation (Some filename) now' now_at' (Returned tt) self w')) =
      (filename, data) :: disk w'.
Proof.
  intros Hreach.
  destruct (reachable_conversation_ok self Hreach)
    as [first [body [Hhist [_ [_ Hstamped]]]]].
  rewrite <- Hhist in Hstamped.
  split; [exact Hstamped|].
  exists (conversation_data_from 0 now_at (conversation_history self)).
  rewrite !save_conversation_written. cbn.
  split; [reflexivity|].
  rewrite (conversation_data_stamped _ now_at' now_at Hstamped 0 0). reflexivity.
Qed.

Lemma reachable_save_does_not_depend_on_the_clock_witness :
  reachable Sample.fresh /\ all_stamped (conversation_history Sample.fresh).
Proof.
  assert (Hreach : reachable Sample.fresh).
  { apply (reachable_init (Some "key") "gemini-1.5-flash" None (Returned tt) (Returned tt)
             Sample.noon Sample.nothing).
    reflexivity. }
  split; [exact Hreach|].
  exact (proj1 (reachable_save_does_not_depend_on_the_clock Sample.fresh Sample.nothing
                  Sample.nothing "out.json" Sample.noon Sample.later
                  (fun _ => Sample.noon) (fun _ => Sample.later) Hreach)).
Defined.

(** X12.  Saving a conversation in which nothing was said yet (the
    transcript is a system message alone, as right after the start or after a
    clear) writes a file that holds the empty list. *)
Theorem saving_an_empty_conversation
    (self : AdvancedChatbot) (w : World) (filename : option string)
    (now : datetime) (now_at : nat -> datetime) (first : ChatMessage) :
  conversation_history self = [first] ->
  role first = "system" ->
  save_conversation filename now now_at (Returned tt) self w =
  (Returned tt, self,
   mkWorld
     (List.app (stdout w) [line ("ðŸ’¾ Conversation saved to " ++ saved_name filename now)])
     ((saved_name filename now, []) :: disk w)).
Proof.
  intros Hhist Hrole.
  rewrite save_conversation_written, Hhist. simpl. rewrite Hrole. reflexivity.
Qed.

Lemma saving_an_empty_conversation_witness :
  conversation_history Sample.fresh = [system_message_at Sample.noon (system_prompt Sample.fresh)] /\
  role (system_message_at Sample.noon (system_prompt Sample.fresh)) = "system" /\
  disk (world_of (save_conversation None Sample.later (fun _ => Sample.noon) (Returned tt)
                    Sample.fresh Sample.nothing)) =
  [("chatbot_conversation_20250115_120007.json", [])].
Proof.
  split; [reflexivity|]. split; [reflexivity|].
  rewrite (saving_an_empty_conversation Sample.fresh Sample.nothing None Sample.later
             (fun _ => Sample.noon) _ eq_refl eq_refl).
  reflexivity.
Defined.

(** ** The command loop *)

Lemma printed_printed (w : World) (texts texts' : list string) :
  printed (printed w texts) texts' = printed w (texts ++ texts')%list.
Proof. unfold printed. cbn. rewrite <- app_assoc. reflexivity. Qed.

Lemma print_run {S : Type} (text : string) (s : S) (w : World) :
  print text s w = (Returned tt, s, printed w [line text]).
Proof. reflexivity. Qed.

Lemma print_end_run {S : Type} (text ending : string) (s : S) (w : World) :
  print_end text ending s w = (Returned tt, s, printed w [text ++ ending]).
Proof. reflexivity. Qed.

Lemma print_help_run (s : AdvancedChatbot) (w : World) :
  print_help s w = (Returned tt, s, printed w help_texts).
Proof.
  unfold print_help, bind, print, print_end, printed. cbn.
  repeat rewrite <- app_assoc. reflexivity.
Qed.

Lemma append_empty (s : string) : s ++ EmptyString = s.
Proof. induction s as [|c rest IH]; simpl; [reflexivity | rewrite IH; reflexivity]. Qed.

Lemma append_assoc (s1 s2 s3 : string) : (s1 ++ s2) ++ s3 = s1 ++ (s2 ++ s3).
Proof. induction s1 as [|c rest IH]; simpl; [reflexivity | rewrite IH; reflexivity]. Qed.

Lemma print_chars_run {S : Type} (texts : list string) (s : S) (w : World) :
  print_chars texts s w =
  (Returned tt, s, printed w (map (fun char => char ++ EmptyString) texts)).
Proof.
  revert w. induction texts as [|char rest IH]; intros w.
  - unfold printed. cbn. rewrite app_nil_r. destruct w; reflexivity.
  - cbn [print_chars]. unfold bind. rewrite print_end_run. cbv beta iota.
    rewrite IH, printed_printed. reflexivity.
Qed.

Lemma print_typing_animation_run {py : StrOps} {S : Type} (text : string) (s : S) (w : World) :
  print_typing_animation text s w =
  (Returned tt, s, printed w (char_texts text ++ [newline])%list).
Proof.
  unfold print_typing_animation, bind. rewrite print_chars_run.
  cbv beta iota. rewrite print_run, printed_printed. reflexivity.
Qed.

(** The statements inside [try:], by what the typed line asks for. *)
Lemma loop_try_parse {py : StrOps} (t : Turn) (typed_line : string) (self : AdvancedChatbot) (w : World) :
  typed t = Returned typed_line ->
  loop_try t self w =
  match parse typed_line with
  | Nothing => (Returned Continue, self, printed w [prompt])
  | Quit => (Returned Break, self, printed w [prompt; farewell_text])
  | Help => (Returned Continue, self, printed w (prompt :: help_texts))
  | DoClear =>
      (clear_history (restarted t) (now_first t) ;; ret Continue) self (printed w [prompt])
  | DoSummary =>
      (summary <- get_conversation_summary ;;
       print ("ðŸ“Š " ++ summary) ;;
       ret Continue) self (printed w [prompt])
  | DoSave =>
      (save_conversation None (now_first t) (now_saving t) (written t) ;; ret Continue)
        self (printed w [prompt])
  | Say user_input =>
      (response <- get_ai_response user_input (now_first t) (now_second t) (replied t) ;;
       print_end "ðŸ¤–" " " ;;
       print_typing_animation response ;;
       ret Continue) self (printed w [prompt])
  end.
Proof.
  intros Htyped.
  unfold loop_try, parse.
  unfold bind at 1. rewrite (print_end_run "You: " EmptyString self w).
  change ("You: " ++ EmptyString) with prompt. cbv beta iota.
  unfold bind at 1. unfold extern at 1. rewrite Htyped. cbv beta iota zeta.
  destruct (strip typed_line =? EmptyString); [reflexivity|].
  destruct (existsb (String.eqb (lower (strip typed_line))) ["quit"; "exit"; "bye"]).
  { unfold bind, ret. rewrite print_run, printed_printed. reflexivity. }
  destruct (lower (strip typed_line) =? "help").
  { unfold bind, ret. rewrite print_help_run, printed_printed. reflexivity. }
  destruct (lower (strip typed_line) =? "clear"); [reflexivity|].
  destruct (lower (strip typed_line) =? "summary"); [reflexivity|].
  destruct (lower (strip typed_line) =? "save"); reflexivity.
Qed.

(** One round, by how the statements inside [try:] end. *)
Lemma loop_round_of_try {py : StrOps} (t : Turn) (self : AdvancedChatbot) (w : World) :
  loop_round t self w =
  match loop_try t self w with
  | (Returned c, self', w') => (Returned c, self', w')
  | (Raised e, self', w') =>
      if is_KeyboardInterrupt e then (Returned Break, self', printed w' [interrupted_text])
      else if is_EOFError e then (Returned Break, self', printed w' [input_ended_text])
      else if isinstance_Exception e then
        (Returned Continue, self',
         printed w' [line ("âŒ An unexpected error occurred: " ++ str e); line "Please try again or type 'quit' to exit."])
      else (Raised e, self', w')
  end.
Proof.
  unfold loop_round.
  destruct (loop_try t self w) as [[[c|e] self'] w']; [reflexivity|].
  destruct (is_KeyboardInterrupt e); [reflexivity|].
  destruct (is_EOFError e); [reflexivity|].
  destruct (isinstance_Exception e); [|reflexivity].
  unfold bind, ret, print, print_end, printed. cbn. rewrite <- app_assoc. reflexivity.
Qed.

(** The loop, by how its first round ends. *)
Lemma loop_cons {py : StrOps} (t : Turn) (later : list Turn) (self : AdvancedChatbot) (w : World) :
  loop (t :: later) self w =
  match loop_round t self w with
  | (Returned Break, self', w') => (Returned tt, self', w')
  | (Returned Continue, self', w') => loop later self' w'
  | (Raised e, self', w') => (Raised e, self', w')
  end.
Proof.
  cbn [loop]. unfold bind.
  destruct (loop_round t self w) as [[[[]|e] self'] w']; reflexivity.
Qed.

(** The loop when the input has ended. *)
Lemma loop_nil {py : StrOps} (self : AdvancedChatbot) (w : World) :
  loop [] self w = (Returned tt, self, printed w [prompt; input_ended_text]).
Proof.
  cbn [loop]. unfold bind. rewrite loop_round_of_try.
  unfold loop_try, bind. rewrite (print_end_run "You: " EmptyString self w).
  cbv beta iota. cbn [extern end_of_input typed].
  cbn [is_KeyboardInterrupt is_EOFError exc_class]. rewrite printed_printed. reflexivity.
Qed.

Lemma parse_blank {py : StrOps} (typed_line : string) :
  strip typed_line = EmptyString -> parse typed_line = Nothing.
Proof. intros H. unfold parse. rewrite H. reflexivity. Qed.

Lemma lower_not_empty {py : StrOps} (text word : string) :
  lower text = word -> word <> EmptyString -> (text =? EmptyString) = false.
Proof.
  intros Hlower Hword. apply String.eqb_neq. intros ->. apply Hword.
  rewrite <- Hlower. apply lower_empty.
Qed.

Lemma parse_quit {py : StrOps} (typed_line : string) :
  In (lower (strip typed_line)) ["quit"; "exit"; "bye"] -> parse typed_line = Quit.
Proof.
  intros Hin. unfold parse.
  assert (Hne : (strip typed_line =? EmptyString) = false).
  { destruct Hin as [H | [H | [H | []]]];
      apply (lower_not_empty _ _ (eq_sym H)); discriminate. }
  rewrite Hne.
  destruct Hin as [H | [H | [H | []]]]; rewrite <- H; reflexivity.
Qed.

Lemma parse_say {py : StrOps} (typed_line : string) :
  strip typed_line <> EmptyString ->
  is_command (strip typed_line) = false ->
  parse typed_line = Say (strip typed_line).
Proof.
  intros Hne Hcmd. unfold parse.
  apply String.eqb_neq in Hne. rewrite Hne.
  unfold is_command, command_words in Hcmd. cbn [existsb] in Hcmd.
  repeat (apply orb_false_iff in Hcmd; destruct Hcmd as [? Hcmd]).
  cbn [existsb].
  repeat match goal with
         | H : (lower (strip typed_line) =? _) = false |- _ => rewrite H; clear H
         end.
  reflexivity.
Qed.

(** X13.  A line that, stripped and lower-cased, is quit, exit or bye ends
    the loop: the farewell is printed after the prompt, the chatbot is as it
    was, the loop returns and nothing typed later is read. *)
Theorem loop_ends_on_a_quit_word {py : StrOps}
    (t : Turn) (later : list Turn) (typed_line : string)
    (self : AdvancedChatbot) (w : World) :
  typed t = Returned typed_line ->
  In (lower (strip typed_line)) ["quit"; "exit"; "bye"] ->
  loop (t :: later) self w = (Returned tt, self, printed w [prompt; farewell_text]).
Proof.
  intros Htyped Hquit.
  rewrite loop_cons, loop_round_of_try, (loop_try_parse t typed_line self w Htyped).
  rewrite (parse_quit typed_line Hquit). reflexivity.
Qed.

Lemma loop_ends_on_a_quit_word_witness :
  In (lower (strip "  Bye ")) ["quit"; "exit"; "bye"] /\
  result_of (loop [SampleTurns.typing "  Bye "] Sample.fresh Sample.nothing) = Returned tt.
Proof.
  assert (Hin : In (lower (strip "  Bye ")) ["quit"; "exit"; "bye"]).
  { right. right. left. reflexivity. }
  split; [exact Hin|].
  rewrite (loop_ends_on_a_quit_word (SampleTurns.typing "  Bye ") [] "  Bye "
             Sample.fresh Sample.nothing eq_refl Hin).
  reflexivity.
Defined.

(** X14.  Blank lines are ignored: after any number of lines that are empty
    once stripped, followed by the end of the input, the loop has only
    written its prompt once per line and once more, then the text for the
    ended input; the chatbot is as it was and the loop returns. *)
Theorem loop_ignores_blank_lines {py : StrOps}
    (script : list Turn) (self : AdvancedChatbot) (w : World) :
  Forall blank_turn script ->
  loop script self w =
  (Returned tt, self,
   printed w (repeat prompt (List.length script) ++ [prompt; input_ended_text])%list).
Proof.
  intros Hblank. revert w.
  induction Hblank as [|t later [typed_line [Htyped Hstrip]] _ IH]; intros w.
  - apply loop_nil.
  - rewrite loop_cons, loop_round_of_try, (loop_try_parse t typed_line self w Htyped).
    rewrite (parse_blank typed_line Hstrip).
    rewrite IH, printed_printed. reflexivity.
Qed.

Lemma loop_ignores_blank_lines_witness :
  Forall blank_turn [SampleTurns.typing "   "; SampleTurns.typing EmptyString] /\
  loop [SampleTurns.typing "   "; SampleTurns.typing EmptyString] Sample.fresh
    Sample.nothing =
  (Returned tt, Sample.fresh,
   mkWorld [prompt; prompt; prompt; input_ended_text] []).
Proof.
  assert (Hblank : Forall blank_turn
                     [SampleTurns.typing "   "; SampleTurns.typing EmptyString]).
  { repeat constructor.
    - exists "   ". split; reflexivity.
    - exists EmptyString. split; reflexivity. }
  split; [exact Hblank|].
  rewrite (loop_ignores_blank_lines _ Sample.fresh Sample.nothing Hblank).
  reflexivity.
Defined.

(** X15.  When reading a line is interrupted or the input has ended, the
    loop ends without raising: it prints the matching farewell after the
    prompt, leaves the chatbot as it was and reads nothing more.  Any other
    [Exception] raised while reading is reported and the loop goes on with the
    next round. *)
Theorem loop_survives_failed_reading {py : StrOps}
    (t : Turn) (later : list Turn) (e : BaseException)
    (self : AdvancedChatbot) (w : World) :
  typed t = Raised e ->
  (exc_class e = KeyboardInterrupt ->
   loop (t :: later) self w = (Returned tt, self, printed w [prompt; interrupted_text])) /\
  (exc_class e = EOFError ->
   loop (t :: later) self w = (Returned tt, self, printed w [prompt; input_ended_text])) /\
  (exc_class e = OtherException ->
   loop (t :: later) self w =
   loop later self
     (printed w [prompt; line ("âŒ An unexpected error occurred: " ++ str e); line "Please try again or type 'quit' to exit."])).
Proof.
  intros Htyped.
  assert (Htry : loop_try t self w = (Raised e, self, printed w [prompt])).
  { unfold loop_try, bind. rewrite (print_end_run "You: " EmptyString self w).
    cbv beta iota. unfold extern. rewrite Htyped. reflexivity. }
  repeat split; intros Hclass;
    rewrite loop_cons, loop_round_of_try, Htry;
    unfold is_KeyboardInterrupt, is_EOFError, isinstance_Exception; rewrite Hclass;
    rewrite printed_printed; reflexivity.
Qed.

Lemma loop_survives_failed_reading_witness :
  typed (SampleTurns.stopped SampleTurns.interrupt) = Raised SampleTurns.interrupt /\
  exc_class SampleTurns.interrupt = KeyboardInterrupt /\
  loop [SampleTurns.stopped SampleTurns.interrupt; SampleTurns.typing "never read"]
    Sample.fresh Sample.nothing =
  (Returned tt, Sample.fresh, mkWorld [prompt; interrupted_text] []).
Proof.
  split; [reflexivity|]. split; [reflexivity|].
  rewrite (proj1 (loop_survives_failed_reading
                    (SampleTurns.stopped SampleTurns.interrupt)
                    [SampleTurns.typing "never read"] SampleTurns.interrupt
                    Sample.fresh Sample.nothing eq_refl) eq_refl).
  reflexivity.
Defined.

(** X16.  A line that is not blank and, stripped and lower-cased, is no
    command word is said to the chatbot stripped but otherwise as typed.  When
    the remote call returns or raises an exception, the round ends normally:
    the transcript gains the user message (and the assistant message when
    there is an answer), and after the prompt and the typing indicator the
    answer or the explanation is shown, one character per write. *)
Theorem loop_says_other_lines {py : StrOps}
    (t : Turn) (typed_line : string) (self : AdvancedChatbot) (w : World) :
  typed t = Returned typed_line ->
  strip typed_line <> EmptyString ->
  is_command (strip typed_line) = false ->
  has_session self = true ->
  answered (replied t) = true ->
  loop_round t self w =
  (Returned Continue,
   with_history self
     (conversation_history self ++
      gained_by (strip typed_line) (now_first t) (now_second t) (replied t))%list,
   printed w
     (prompt :: typing_texts ++ [answer_mark] ++
      char_texts (answer_of (replied t)) ++ [newline])%list).
Proof.
  intros Htyped Hne Hcmd Hs Hreply.
  rewrite loop_round_of_try, (loop_try_parse t typed_line self w Htyped).
  rewrite (parse_say typed_line Hne Hcmd).
  unfold bind at 1.
  rewrite (send_turn_run self (printed w [prompt]) (strip typed_line) (now_first t)
             (now_second t) (replied t) Hs Hreply).
  cbv beta iota. unfold bind at 1. rewrite print_end_run. fold answer_mark. cbv beta iota.
  unfold bind at 1. rewrite print_typing_animation_run. cbv beta iota.
  unfold ret. rewrite !printed_printed. reflexivity.
Qed.

Lemma loop_says_other_lines_witness :
  strip " Hello there " <> EmptyString /\
  is_command (strip " Hello there ") = false /\
  has_session Sample.fresh = true /\
  conversation_history
    (object_of (loop_round (SampleTurns.typing " Hello there ") Sample.fresh
                  Sample.nothing)) =
  (conversation_history Sample.fresh ++
   [user_message_at Sample.noon "Hello there";
    assistant_message_at Sample.later "Hi there!"])%list.
Proof.
  assert (Hne : strip " Hello there " <> EmptyString) by (cbv; discriminate).
  split; [exact Hne|]. split; [reflexivity|]. split; [reflexivity|].
  rewrite (loop_says_other_lines (SampleTurns.typing " Hello there ") " Hello there "
             Sample.fresh Sample.nothing eq_refl Hne eq_refl eq_refl eq_refl).
  reflexivity.
Defined.

(** X17.  When the remote call of a said line is interrupted, the loop ends
    without raising: the user message stays in the transcript, the farewell
    for an interrupted chat is printed and nothing more is read. *)
Theorem loop_ends_when_the_remote_call_is_interrupted {py : StrOps}
    (t : Turn) (later : list Turn) (typed_line : string) (e : BaseException)
    (self : AdvancedChatbot) (w : World) :
  typed t = Returned typed_line ->
  strip typed_line <> EmptyString ->
  is_command (strip typed_line) = false ->
  has_session self = true ->
  replied t = Raised e ->
  exc_class e = KeyboardInterrupt ->
  loop (t :: later) self w =
  (Returned tt,
   with_history self
     (conversation_history self ++
      [user_message_at (now_first t) (strip typed_line)])%list,
   printed w (prompt :: typing_texts ++ [interrupted_text])%list).
Proof.
  intros Htyped Hne Hcmd Hs Hreply Hclass.
  assert (He : isinstance_Exception e = false).
  { unfold isinstance_Exception. rewrite Hclass. reflexivity. }
  rewrite loop_cons, loop_round_of_try, (loop_try_parse t typed_line self w Htyped).
  rewrite (parse_say typed_line Hne Hcmd).
  unfold bind at 1. rewrite Hreply.
  rewrite (send_turn_interrupted self (printed w [prompt]) (strip typed_line)
             (now_first t) (now_second t) e Hs He).
  cbv beta iota. unfold is_KeyboardInterrupt. rewrite Hclass.
  rewrite !printed_printed. reflexivity.
Qed.

Lemma loop_ends_when_the_remote_call_is_interrupted_witness :
  strip "Hello" <> EmptyString /\
  is_command (strip "Hello") = false /\
  has_session Sample.fresh = true /\
  exc_class SampleTurns.interrupt = KeyboardInterrupt /\
  result_of (loop [SampleTurns.failing "Hello" SampleTurns.interrupt;
                   SampleTurns.typing "never read"] Sample.fresh Sample.nothing) =
  Returned tt.
Proof.
  assert (Hne : strip "Hello" <> EmptyString) by (cbv; discriminate).
  split; [exact Hne|]. split; [reflexivity|]. split; [reflexivity|].
  split; [reflexivity|].
  rewrite (loop_ends_when_the_remote_call_is_interrupted
             (SampleTurns.failing "Hello" SampleTurns.interrupt)
             [SampleTurns.typing "never read"] "Hello" SampleTurns.interrupt
             Sample.fresh Sample.nothing eq_refl Hne eq_refl eq_refl eq_refl eq_refl).
  reflexivity.
Defined.

Lemma parse_help {py : StrOps} (typed_line : string) :
  lower (strip typed_line) = "help" -> parse typed_line = Help.
Proof.
  intros H. unfold parse.
  rewrite (lower_not_empty _ _ H ltac:(discriminate)), H. reflexivity.
Qed.

Lemma parse_clear {py : StrOps} (typed_line : string) :
  lower (strip typed_line) = "clear" -> parse typed_line = DoClear.
Proof.
  intros H. unfold parse.
  rewrite (lower_not_empty _ _ H ltac:(discriminate)), H. reflexivity.
Qed.

Lemma parse_summary {py : StrOps} (typed_line : string) :
  lower (strip typed_line) = "summary" -> parse typed_line = DoSummary.
Proof.
  intros H. unfold parse.
  rewrite (lower_not_empty _ _ H ltac:(discriminate)), H. reflexivity.
Qed.

Lemma parse_save {py : StrOps} (typed_line : string) :
  lower (strip typed_line) = "save" -> parse typed_line = DoSave.
Proof.
  intros H. unfold parse.
  rewrite (lower_not_empty _ _ H ltac:(discriminate)), H. reflexivity.
Qed.

(** X18.  The commands help and summary, in any letter case and with
    spaces around, only print: help writes the list of commands, summary
    writes the summary of the conversation after its mark; the chatbot is as
    it was and the loop goes on. *)
Theorem loop_help_and_summary_only_print {py : StrOps}
    (t : Turn) (typed_line : string) (self : AdvancedChatbot) (w : World) :
  typed t = Returned typed_line ->
  (lower (strip typed_line) = "help" ->
   loop_round t self w = (Returned Continue, self, printed w (prompt :: help_texts))) /\
  (lower (strip typed_line) = "summary" ->
   loop_round t self w =
   (Returned Continue, self,
    printed w [prompt; line ("ðŸ“Š " ++ summary_text self)])).
Proof.
  intros Htyped. split; intros Hword;
    rewrite loop_round_of_try, (loop_try_parse t typed_line self w Htyped).
  - rewrite (parse_help typed_line Hword). reflexivity.
  - rewrite (parse_summary typed_line Hword).
    unfold bind at 1. rewrite get_conversation_summary_run. cbv beta iota.
    fold (summary_text self).
    unfold bind, ret. rewrite print_run, printed_printed. reflexivity.
Qed.

Lemma loop_help_and_summary_only_print_witness :
  lower (strip " SUMMARY") = "summary" /\
  loop_round (SampleTurns.typing " SUMMARY") Sample.talked Sample.nothing =
  (Returned Continue, Sample.talked,
   mkWorld [prompt;
            line ("ðŸ“Š " ++ "Conversation stats: 1 user messages, 1 AI responses")] []).
Proof.
  split; [reflexivity|].
  rewrite (proj2 (loop_help_and_summary_only_print (py := ascii_str)
                    (SampleTurns.typing " SUMMARY")
                    " SUMMARY" Sample.talked Sample.nothing eq_refl) eq_refl).
  reflexivity.
Defined.

(** X19.  The command clear in the loop: when the chat restarts, the
    transcript is the fresh system message, the confirmation is printed and
    the loop goes on; when restarting raises an exception, the error is printed
    and the exit with status 1 leaves the loop, which reads nothing more. *)
Theorem loop_clear_resets_or_exits {py : StrOps}
    (t : Turn) (later : list Turn) (typed_line : string)
    (self : AdvancedChatbot) (w : World) :
  typed t = Returned typed_line ->
  lower (strip typed_line) = "clear" ->
  (restarted t = Returned tt ->
   loop_round t self w =
   (Returned Continue, cleared self (now_first t),
    printed w [prompt; line "ðŸ—‘ï¸ Conversation history cleared."])) /\
  (forall e : BaseException,
     restarted t = Raised e ->
     isinstance_Exception e = true ->
     loop (t :: later) self w =
     (Raised exit_1, with_history self [],
      printed w [prompt; line ("âŒ Error starting chat session: " ++ str e)])).
Proof.
  intros Htyped Hword. split.
  - intros Hrestart.
    rewrite loop_round_of_try, (loop_try_parse t typed_line self w Htyped).
    rewrite (parse_clear typed_line Hword).
    unfold bind at 1. rewrite Hrestart, clear_history_restarted. cbv beta iota.
    unfold ret, cleared. rewrite printed_printed. reflexivity.
  - intros e Hrestart He.
    rewrite loop_cons, loop_round_of_try, (loop_try_parse t typed_line self w Htyped).
    rewrite (parse_clear typed_line Hword).
    unfold bind at 1. rewrite Hrestart, (clear_history_not_restarted _ _ _ e He).
    cbv beta iota. cbn [is_KeyboardInterrupt is_EOFError isinstance_Exception exc_class
                        exit_1].
    unfold with_history. rewrite printed_printed. reflexivity.
Qed.

Lemma loop_clear_resets_or_exits_witness :
  lower (strip "Clear") = "clear" /\
  isinstance_Exception Sample.boom = true /\
  result_of (loop [SampleTurns.failing "Clear" Sample.boom; SampleTurns.typing "never read"]
               Sample.talked Sample.nothing) = Raised exit_1.
Proof.
  split; [reflexivity|]. split; [reflexivity|].
  rewrite (proj2 (loop_clear_resets_or_exits (py := ascii_str)
                    (SampleTurns.failing "Clear" Sample.boom)
                    [SampleTurns.typing "never read"] "Clear" Sample.talked
                    Sample.nothing eq_refl eq_refl) Sample.boom eq_refl eq_refl).
  reflexivity.
Defined.

(** X20.  The command save in the loop always writes under the default
    name, made of the date and time of the clock; when the file is written it
    holds the saved conversation, its name is printed, the chatbot is as it
    was and the loop goes on. *)
Theorem loop_save_uses_the_default_name {py : StrOps}
    (t : Turn) (typed_line : string) (self : AdvancedChatbot) (w : World) :
  typed t = Returned typed_line ->
  lower (strip typed_line) = "save" ->
  written t = Returned tt ->
  let name := "chatbot_conversation_" ++ strftime_Ymd_HMS (now_first t) ++ ".json" in
  loop_round t self w =
  (Returned Continue, self,
   mkWorld
     (List.app (stdout w) [prompt; line ("ðŸ’¾ Conversation saved to " ++ name)])
     ((name, conversation_data_from 0 (now_saving t) (conversation_history self))
      :: disk w)).
Proof.
  intros Htyped Hword Hwritten name.
  rewrite loop_round_of_try, (loop_try_parse t typed_line self w Htyped).
  rewrite (parse_save typed_line Hword).
  unfold bind at 1. rewrite Hwritten, save_conversation_written. cbv beta iota.
  unfold ret, printed. cbn [stdout disk saved_name]. rewrite <- app_assoc. reflexivity.
Qed.

Lemma loop_save_uses_the_default_name_witness :
  lower (strip "save") = "save" /\
  disk (world_of (loop_round (SampleTurns.typing "save") Sample.fresh Sample.nothing)) =
  [("chatbot_conversation_20250115_120000.json", [])].
Proof.
  split; [reflexivity|].
  rewrite (loop_save_uses_the_default_name (py := ascii_str)
             (SampleTurns.typing "save") "save"
             Sample.fresh Sample.nothing eq_refl eq_refl eq_refl).
  reflexivity.
Defined.

(** In one round the chatbot changes as by one operation, or not at all;
    and when the round lets the loop go on, that operation returned. *)
Lemma loop_round_step {py : StrOps} (t : Turn) (self : AdvancedChatbot) (w : World) :
  exists (op : Operation) (w' : World),
    object_of (loop_round t self w) = object_of (perform op self w') /\
    (result_of (loop_round t self w) = Returned Continue ->
     result_of (perform op self w') = Returned tt).
Proof.
  assert (Hnone : object_of (perform Summary self w) = self /\
                  result_of (perform Summary self w) = Returned tt).
  { unfold perform, bind. rewrite get_conversation_summary_run. split; reflexivity. }
  destruct Hnone as [Hobj Hres].
  rewrite loop_round_of_try.
  destruct (typed t) as [typed_line|e] eqn:Htyped.
  - rewrite (loop_try_parse t typed_line self w Htyped).
    destruct (parse typed_line) as [| | | | | |user_input].
    + exists Summary, w. rewrite Hobj, Hres. split; [reflexivity | intros _; reflexivity].
    + exists Summary, w. rewrite Hobj, Hres. split; [reflexivity | intros _; reflexivity].
    + exists Summary, w. rewrite Hobj, Hres. split; [reflexivity | intros _; reflexivity].
    + (* clear *)
      exists (Clear (restarted t) (now_first t)), (printed w [prompt]).
      pose proof (perform_raises_no_Exception (Clear (restarted t) (now_first t)) self
                    (printed w [prompt])) as Hno.
      unfold perform, bind in *.
      destruct (clear_history (restarted t) (now_first t) self (printed w [prompt]))
        as [[[[]|e] self'] w1].
      * split; [reflexivity | intros _; reflexivity].
      * specialize (Hno e eq_refl).
        unfold is_EOFError, is_KeyboardInterrupt. unfold isinstance_Exception in Hno |- *.
        destruct (exc_class e); try discriminate Hno;
          (split; [reflexivity | intros H; discriminate H]).
    + (* summary *)
      exists Summary, w. rewrite Hobj, Hres.
      unfold bind. rewrite get_conversation_summary_run. cbv beta iota.
      rewrite print_run. split; [reflexivity | intros _; reflexivity].
    + (* save *)
      exists (Persist None (now_first t) (now_saving t) (written t)), (printed w [prompt]).
      pose proof (perform_raises_no_Exception
                    (Persist None (now_first t) (now_saving t) (written t)) self
                    (printed w [prompt])) as Hno.
      unfold perform, bind in *.
      destruct (save_conversation None (now_first t) (now_saving t) (written t) self
                  (printed w [prompt])) as [[[[]|e] self'] w1].
      * split; [reflexivity | intros _; reflexivity].
      * specialize (Hno e eq_refl).
        unfold is_EOFError, is_KeyboardInterrupt. unfold isinstance_Exception in Hno |- *.
        destruct (exc_class e); try discriminate Hno;
          (split; [reflexivity | intros H; discriminate H]).
    + (* a said line *)
      exists (Send user_input (now_first t) (now_second t) (replied t)),
        (printed w [prompt]).
      pose proof (perform_raises_no_Exception
                    (Send user_input (now_first t) (now_second t) (replied t)) self
                    (printed w [prompt])) as Hno.
      unfold perform, bind in *.
      destruct (get_ai_response user_input (now_first t) (now_second t) (replied t) self
                  (printed w [prompt])) as [[[response|e] self'] w1].
      * rewrite print_end_run. cbv beta iota.
        rewrite print_typing_animation_run. cbv beta iota.
        split; [reflexivity | intros _; reflexivity].
      * specialize (Hno e eq_refl).
        unfold is_EOFError, is_KeyboardInterrupt. unfold isinstance_Exception in Hno |- *.
        destruct (exc_class e); try discriminate Hno;
          (split; [reflexivity | intros H; discriminate H]).
  - assert (Htry : loop_try t self w = (Raised e, self, printed w [prompt])).
    { unfold loop_try, bind. rewrite (print_end_run "You: " EmptyString self w).
      cbv beta iota. unfold extern. rewrite Htyped. reflexivity. }
    rewrite Htry.
    exists Summary, w. rewrite Hobj, Hres.
    split; [|intros _; reflexivity].
    destruct (is_KeyboardInterrupt e); [reflexivity|].
    destruct (is_EOFError e); [reflexivity|].
    destruct (isinstance_Exception e); reflexivity.
Qed.

(** X21.  The loop works on sessions a process can hold only, and changes
    them through the four operations only: from such a session, a round that
    lets the loop go on leaves such a session again; and however the loop
    ends, after any input, the transcript of the chatbot has the system message
    first, if it has any message, and no system message elsewhere. *)
Theorem loop_keeps_the_session_reachable {py : StrOps} (self : AdvancedChatbot) :
  reachable self ->
  (forall (t : Turn) (w : World),
     result_of (loop_round t self w) = Returned Continue ->
     reachable (object_of (loop_round t self w))) /\
  (forall (script : list Turn) (w : World),
     transcript_ok (object_of (loop script self w))).
Proof.
  intros Hreach.
  assert (Hround : forall self t w,
            reachable self ->
            result_of (loop_round t self w) = Returned Continue ->
            reachable (object_of (loop_round t self w))).
  { clear self Hreach. intros self t w Hreach Hcontinue.
    destruct (loop_round_step t self w) as [op [w' [Hobj Hres]]].
    rewrite Hobj. apply reachable_step; [exact Hreach | exact (Hres Hcontinue)]. }
  split; [intros t w; exact (Hround self t w Hreach)|].
  intros script. revert self Hreach.
  induction script as [|t later IH]; intros self Hreach w.
  - rewrite loop_nil. exact (proj2 (reachable_started self Hreach)).
  - assert (Hok : transcript_ok (object_of (loop_round t self w))).
    { destruct (loop_round_step t self w) as [op [w' [Hobj _]]].
      rewrite Hobj.
      exact (proj1 (perform_keeps_invariant op self w' (reachable_started self Hreach))). }
    pose proof (Hround self t w Hreach) as Hnext.
    rewrite loop_cons.
    destruct (loop_round t self w) as [[[[]|e] self'] w1].
    + apply IH. apply Hnext. reflexivity.
    + exact Hok.
    + exact Hok.
Qed.

Lemma loop_keeps_the_session_reachable_witness :
  reachable Sample.fresh /\
  transcript_ok
    (object_of (loop [SampleTurns.typing "Hello"; SampleTurns.failing "clear" Sample.boom]
                  Sample.fresh Sample.nothing)).
Proof.
  assert (Hreach : reachable Sample.fresh).
  { apply (reachable_init (Some "key") "gemini-1.5-flash" None (Returned tt) (Returned tt)
             Sample.noon Sample.nothing).
    reflexivity. }
  split; [exact Hreach|].
  exact (proj2 (loop_keeps_the_session_reachable Sample.fresh Hreach) _ Sample.nothing).
Defined.

(** ** Showing texts *)

Lemma concat_snoc (texts : list string) (ending : string) :
  String.concat EmptyString (texts ++ [ending])%list =
  String.concat EmptyString texts ++ ending.
Proof.
  induction texts as [|text rest IH]; [reflexivity|].
  cbn [List.app String.concat].
  destruct rest as [|next rest'].
  - reflexivity.
  - cbn [List.app] in *. rewrite IH. cbn [String.append].
    rewrite append_assoc. reflexivity.
Qed.

Lemma concat_char_texts {py : StrOps} (text ending : string) :
  String.concat EmptyString (char_texts text ++ [ending])%list = text ++ ending.
Proof.
  rewrite concat_snoc. unfold char_texts.
  rewrite (map_ext _ (fun char => char) append_empty), map_id, chars_joined.
  reflexivity.
Qed.

(** X23.  The typing animation shows exactly the text: what it writes,
    character after character and then the end of the line, put together is
    the text followed by a line end; it returns and changes nothing else. *)
Theorem typing_animation_shows_the_text {py : StrOps} (text : string) (self : AdvancedChatbot) (w : World) :
  exists texts : list string,
    print_typing_animation text self w = (Returned tt, self, printed w texts) /\
    String.concat EmptyString texts = text ++ newline.
Proof.
  exists (char_texts text ++ [newline])%list.
  split; [apply print_typing_animation_run | apply concat_char_texts].
Qed.

(** ** Starting the program *)

(** X24.  When making the chatbot is interrupted while the client connects,
    the program says goodbye after the welcome and returns; the loop is not
    entered and nothing typed is read. *)
Theorem main_says_goodbye_when_interrupted_at_the_start {py : StrOps}
    (boot : Startup) (script : list Turn) (w : World) (e : BaseException) :
  truthy (GEMINI_API_KEY boot) = true ->
  connected boot = Raised e ->
  exc_class e = KeyboardInterrupt ->
  main boot script tt w =
  (Returned tt, tt, printed w (welcome_texts ++ [line "ðŸ‘‹ Goodbye!"])%list).
Proof.
  intros Hkey Hconnect Hclass.
  unfold main, bind. rewrite print_welcome_message_run. cbv beta iota.
  unfold __init__, _initialize_client, try_except_Exception, bind, or_else.
  cbn [truthy api_key get_self]. rewrite Hkey. cbn [negb ret].
  unfold extern. rewrite Hconnect.
  unfold isinstance_Exception, is_KeyboardInterrupt. rewrite Hclass. cbv beta iota.
  rewrite Hclass, print_run, printed_printed. reflexivity.
Qed.

Lemma main_says_goodbye_when_interrupted_at_the_start_witness :
  truthy (Some "key") = true /\
  exc_class SampleTurns.interrupt = KeyboardInterrupt /\
  result_of (main (mkStartup (Some "key") (Raised SampleTurns.interrupt) (Returned tt)
                     Sample.noon)
               [SampleTurns.typing "never read"] tt Sample.nothing) = Returned tt.
Proof.
  split; [reflexivity|]. split; [reflexivity|].
  rewrite (main_says_goodbye_when_interrupted_at_the_start
             (mkStartup (Some "key") (Raised SampleTurns.interrupt) (Returned tt)
                Sample.noon)
             [SampleTurns.typing "never read"] Sample.nothing SampleTurns.interrupt
             eq_refl eq_refl eq_refl).
  reflexivity.
Defined.

(** X25.  When the chatbot is made, the program prints that it is ready and
    a tip, and then is the loop on that chatbot: it ends as the loop ends and
    leaves the world the loop leaves. *)
Theorem main_is_the_loop_on_the_new_chatbot {py : StrOps}
    (boot : Startup) (script : list Turn) (w w1 : World) (chatbot : AdvancedChatbot) :
  __init__ None "gemini-1.5-flash" (GEMINI_API_KEY boot) (connected boot) (started boot)
    (now_started boot) tt (printed w welcome_texts) = (Returned chatbot, tt, w1) ->
  let ready := printed w1 [line "ðŸŽ¯ Chatbot initialized successfully!"; line "ðŸ’¡ Tip: Try asking me about anything - I can help with various topics!"; line EmptyString] in
  reachable chatbot /\
  main boot script tt w =
  (result_of (loop script chatbot ready), tt, world_of (loop script chatbot ready)).
Proof.
  intros Hinit ready. split.
  - apply (reachable_init None "gemini-1.5-flash" (GEMINI_API_KEY boot) (connected boot)
             (started boot) (now_started boot) (printed w welcome_texts)).
    rewrite Hinit. reflexivity.
  - unfold main, bind. rewrite print_welcome_message_run. cbv beta iota.
    rewrite Hinit. cbv beta iota.
    repeat (rewrite print_run; cbv beta iota).
    rewrite !printed_printed. cbn [List.app]. fold ready.
    destruct (loop script chatbot ready) as [[r self'] w2]. reflexivity.
Qed.

Lemma main_is_the_loop_on_the_new_chatbot_witness :
  main (mkStartup (Some "key") (Returned tt) (Returned tt) Sample.noon)
    [SampleTurns.typing "quit"] tt Sample.nothing =
  (Returned tt, tt,
   mkWorld
     (welcome_texts ++
      [line "âœ… Successfully connected to Google AI API"; line "ðŸŽ¯ Chatbot initialized successfully!"; line "ðŸ’¡ Tip: Try asking me about anything - I can help with various topics!"; line EmptyString; prompt; farewell_text])%list
     []).
Proof.
  destruct (main_is_the_loop_on_the_new_chatbot
              (mkStartup (Some "key") (Returned tt) (Returned tt) Sample.noon)
              [SampleTurns.typing "quit"] Sample.nothing
              (printed (printed Sample.nothing welcome_texts) [line "âœ… Successfully connected to Google AI API"])
              Sample.fresh eq_refl) as [_ Hmain].
  rewrite Hmain. reflexivity.
Defined.
